(** * ModuleFederationTypesPlugin: the synchronization controller of src/plugin.ts

    A shallow embedding of [ModuleFederationTypesPlugin.apply] and of the
    closures it creates ([compileTypesHook], [downloadTypesHook],
    [compileTypesContinuouslyHook], the interval callback and the
    [afterEmit] tap), together with the properties of the controller.

    The plugin is event driven.  [apply] is an async function: it runs up to
    [await downloadTypesHook()], is parked there, and continues when the
    download promise is fulfilled.  The host then delivers signals in any
    order: the fulfilment of a pending download, the [afterEmit] hook of the
    compiler, and the elapsing of a live [setInterval] timer.  The model is
    a state machine over these signals; every effect of the plugin is
    recorded in a trace.  A download whose promise is rejected ends [apply]
    at the [await] with nothing further done, which is the run in which its
    signal never comes. *)

From Stdlib Require Import String List ZArith Bool Lia PeanoNat.
Import ListNotations.
Local Open Scope string_scope.
Local Open Scope list_scope.

(** ** JavaScript value conventions used by plugin.ts *)

Module JS.

(** [o?.f]: optional chaining over a possibly undefined object. *)
Definition chain {A B : Type} (o : option A) (f : A -> option B) : option B :=
  match o with
  | Some a => f a
  | None => None
  end.

(** [a ?? d]: only [undefined] falls through to [d]. *)
Definition nullish {A : Type} (a : option A) (d : A) : A :=
  match a with
  | Some v => v
  | None => d
  end.

(** Truthiness of [boolean | undefined]; [!!b] is [truthy_bool b]. *)
Definition truthy_bool (b : option bool) : bool :=
  match b with
  | Some true => true
  | _ => false
  end.

(** Truthiness of [string | undefined]: the empty string is falsy. *)
Definition truthy_string (s : option string) : bool :=
  match s with
  | Some v => negb (v =? "")
  | None => false
  end.

(** Truthiness of an integral [number | undefined]: zero is falsy. *)
Definition truthy_number (n : option Z) : bool :=
  match n with
  | Some v => negb (v =? 0)%Z
  | None => false
  end.

(** Truthiness of [object | undefined]: every object is truthy. *)
Definition truthy_object {A : Type} (o : option A) : bool :=
  match o with
  | Some _ => true
  | None => false
  end.

(** [a === 'lit'] for [a : string | undefined]. *)
Definition strict_eq_string (a : option string) (lit : string) : bool :=
  match a with
  | Some v => v =? lit
  | None => false
  end.

(** [a !== n] for [a : number | undefined]. *)
Definition strict_neq_number (a : option Z) (n : Z) : bool :=
  match a with
  | Some v => negb (v =? n)%Z
  | None => true
  end.

(** [Record<string, string>], and [Object.values] of it. *)
Definition Record := list (string * string).

Definition values (o : Record) : list string := map snd o.

End JS.

(** ** Data read by the plugin *)

(** The fields of [ModuleFederationTypesPluginOptions] that [apply] reads. *)
Module Options.
Record t := {
  disableDownladingRemoteTypes : option bool;
  disableTypeCompilation : option bool;
  downloadTypesWhenIdleIntervalInSeconds : option Z
}.
End Options.

(** [ModuleFederationPluginOptions]: the [_options] of the federation plugin. *)
Module Federation.
Record t := {
  name : option string;
  exposes : option JS.Record;
  remotes : option JS.Record
}.
End Federation.

(** The part of the webpack [Compiler] that [apply] reads. *)
Module Webpack.
Record PluginInstance := {
  constructor_name : string;
  _options : option Federation.t
}.
Record Static := { directory : option string }.
Record DevServer := { static : option Static }.
Record Output := { path : option string }.
Record Compiler := {
  mode : option string;
  plugins : list PluginInstance;
  devServer : option DevServer;
  output : option Output
}.
End Webpack.

(** One invocation of [apply]: [this.options], the [compiler] argument and
    [process.env.DEPLOYMENT_ENV]. *)
Record Invocation := {
  options : option Options.t;
  compiler : Webpack.Compiler;
  DEPLOYMENT_ENV : option string
}.

(** ** Effects *)

Inductive Level := warn | log.

Inductive LogArg :=
| Str (s : string)
| Num (n : Z)
| Obj (o : option JS.Record)
| Now.                                   (* new Date().toLocaleString() *)

(** Everything the plugin does to the outside world. *)
Inductive Event :=
| Logged (l : Level) (args : list LogArg)
| DownloadStarted (n : nat) (remotes urls : option JS.Record)
| DownloadSettled (n : nat)
| Compiled (exposes : option JS.Record) (outFile : string) (isSuccess : bool)
| Rewritten (outFile : string) (typeDefinitions : string)
| Tapped (name : string)
| IntervalCleared (id : option nat)
| IntervalSet (id : nat) (ms : Z).

(** The mutable state around the plugin.  [trace] is kept newest first;
    [history] gives it in the order of occurrence. *)
Record State := {
  trace : list Event;
  awaiting : option nat;            (* apply suspended on this download *)
  inflight : list nat;              (* download promises not yet settled *)
  nextDownload : nat;
  taps : list string;               (* compiler.hooks.afterEmit taps *)
  intervals : list (nat * Z);       (* live setInterval timers: id, delay *)
  nextIntervalId : nat;
  recompileIntervalId : option nat  (* the [let] captured by the closures *)
}.

Definition history (st : State) : list Event := rev (trace st).

Definition init : State :=
  {| trace := []; awaiting := None; inflight := []; nextDownload := 0;
     taps := []; intervals := []; nextIntervalId := 0;
     recompileIntervalId := None |}.

(** A small state monad for the bodies of the closures. *)
Definition M (A : Type) : Type := State -> A * State.

Definition ret {A : Type} (a : A) : M A := fun st => (a, st).

Definition bind {A B : Type} (c : M A) (k : A -> M B) : M B :=
  fun st => let (a, st') := c st in k a st'.

Declare Scope js_scope.
Delimit Scope js_scope with js.
Notation "x <- c ;; k" := (bind c (fun x => k))
  (at level 61, c at next level, right associativity) : js_scope.
Notation "c ;; k" := (bind c (fun _ => k))
  (at level 61, right associativity) : js_scope.
Local Open Scope js_scope.

Definition exec {A : Type} (c : M A) (st : State) : State := snd (c st).

(** [push es st]: the events [es] (newest first) happen in [st]. *)
Definition push (es : list Event) (st : State) : State :=
  {| trace := es ++ trace st; awaiting := awaiting st;
     inflight := inflight st; nextDownload := nextDownload st;
     taps := taps st; intervals := intervals st;
     nextIntervalId := nextIntervalId st;
     recompileIntervalId := recompileIntervalId st |}.

Definition emit (e : Event) : M unit := fun st => (tt, push [e] st).

Definition logger (l : Level) (args : list LogArg) : M unit :=
  emit (Logged l args).

(** [compiler.hooks.afterEmit.tap(name, callback)]. *)
Definition tap (name : string) : M unit := fun st =>
  (tt, {| trace := Tapped name :: trace st; awaiting := awaiting st;
          inflight := inflight st; nextDownload := nextDownload st;
          taps := taps st ++ [name]; intervals := intervals st;
          nextIntervalId := nextIntervalId st;
          recompileIntervalId := recompileIntervalId st |}).

(** [clearInterval(id)]: a no-op on [undefined] and on dead timers. *)
Definition clearInterval (id : option nat) : M unit := fun st =>
  (tt, {| trace := IntervalCleared id :: trace st; awaiting := awaiting st;
          inflight := inflight st; nextDownload := nextDownload st;
          taps := taps st;
          intervals :=
            match id with
            | Some i => filter (fun t => negb (fst t =? i)%nat) (intervals st)
            | None => intervals st
            end;
          nextIntervalId := nextIntervalId st;
          recompileIntervalId := recompileIntervalId st |}).

(** [setInterval(callback, ms)]: a fresh live timer. *)
Definition setInterval (ms : Z) : M nat := fun st =>
  let id := nextIntervalId st in
  (id, {| trace := IntervalSet id ms :: trace st; awaiting := awaiting st;
          inflight := inflight st; nextDownload := nextDownload st;
          taps := taps st; intervals := (id, ms) :: intervals st;
          nextIntervalId := S id;
          recompileIntervalId := recompileIntervalId st |}).

Definition get_recompileIntervalId : M (option nat) := fun st =>
  (recompileIntervalId st, st).

Definition set_recompileIntervalId (id : option nat) : M unit := fun st =>
  (tt, {| trace := trace st; awaiting := awaiting st;
          inflight := inflight st; nextDownload := nextDownload st;
          taps := taps st; intervals := intervals st;
          nextIntervalId := nextIntervalId st;
          recompileIntervalId := id |}).

(** [downloadTypes(remotes, urls)] called: a new pending promise. *)
Definition startDownload (remotes urls : option JS.Record) : M nat := fun st =>
  let n := nextDownload st in
  (n, {| trace := DownloadStarted n remotes urls :: trace st;
         awaiting := awaiting st; inflight := n :: inflight st;
         nextDownload := S n; taps := taps st; intervals := intervals st;
         nextIntervalId := nextIntervalId st;
         recompileIntervalId := recompileIntervalId st |}).

(** [await p]: the async function is parked until [p] settles. *)
Definition await (n : nat) : M unit := fun st =>
  (tt, {| trace := trace st; awaiting := Some n; inflight := inflight st;
          nextDownload := nextDownload st; taps := taps st;
          intervals := intervals st; nextIntervalId := nextIntervalId st;
          recompileIntervalId := recompileIntervalId st |}).

(** The promise [n] settles: it leaves [inflight]; a parked [apply] that was
    waiting for it is released (the caller then runs its continuation). *)
Definition settle (n : nat) : M bool := fun st =>
  (match awaiting st with Some m => (m =? n)%nat | None => false end,
   {| trace := DownloadSettled n :: trace st;
      awaiting :=
        match awaiting st with
        | Some m => if (m =? n)%nat then None else Some m
        | None => None
        end;
      inflight := filter (fun m => negb (m =? n)%nat) (inflight st);
      nextDownload := nextDownload st; taps := taps st;
      intervals := intervals st; nextIntervalId := nextIntervalId st;
      recompileIntervalId := recompileIntervalId st |}).

(** Run [c] once for every element of [l], in order. *)
Fixpoint for_each {A : Type} (l : list A) (c : A -> M unit) : M unit :=
  match l with
  | [] => ret tt
  | a :: l' => c a ;; for_each l' c
  end.

(** ** The modules imported by plugin.ts that are not part of src/ *)

Record CompileTypesResult := {
  isSuccess : bool;
  typeDefinitions : string
}.

(** Modelled from the spec: ./constants is absent; the spec fixes the default
    idle interval at 60 seconds. *)
Definition DEFAULT_DOWNLOAD_TYPES_INTERVAL_IN_SECONDS : Z := 60.

(** The remaining constants and helpers are parameters of the development.
    [compileTypes] reads the file system, so its result may depend on
    everything that happened before the call. *)
Record Imports := {
  CLOUDBEDS_DEPLOYMENT_ENV_WITH_DISABLED_REMOTE_TYPES_DOWNLOAD : string;
  DIR_DIST : string;
  DIR_EMITTED_TYPES : string;
  getRemoteManifestUrls : option Options.t -> option JS.Record;
  isValidUrl : string -> bool;
  compileTypes : list Event -> option JS.Record -> string -> CompileTypesResult;
  getLoggerHint : Webpack.Compiler -> string;
  path_join : list string -> string       (* node's path.join *)
}.

(** Modelled from the spec: ./helpers/validation is absent; every configured
    URL is validated and one invalid URL makes the whole set invalid. *)
Definition isEveryUrlValid (I : Imports) (urls : list string) : bool :=
  forallb (isValidUrl I) urls.

(** ** plugin.ts *)

Definition PLUGIN_NAME : string := "ModuleFederationTypesPlugin".

Section Plugin.

Variable I : Imports.
Variable this : Invocation.

(** *** The constants of [apply] (lines 28-31, 47-59, 79-82) *)

Definition remoteManifestUrls : option JS.Record :=
  getRemoteManifestUrls I (options this).

Definition isCompilationDisabled : bool :=
  JS.truthy_bool (JS.chain (options this) Options.disableTypeCompilation).

Definition isDownloadDisabled : bool :=
  JS.nullish
    (JS.chain (options this) Options.disableDownladingRemoteTypes)
    (JS.strict_eq_string (DEPLOYMENT_ENV this)
       (CLOUDBEDS_DEPLOYMENT_ENV_WITH_DISABLED_REMOTE_TYPES_DOWNLOAD I)).

Definition federationOptions : option Webpack.PluginInstance :=
  find (fun plugin => Webpack.constructor_name plugin =? "ModuleFederationPlugin")
       (Webpack.plugins (compiler this)).

Definition federationPluginOptions : option Federation.t :=
  JS.chain federationOptions Webpack._options.

Definition exposes : option JS.Record :=
  JS.chain federationPluginOptions Federation.exposes.

Definition remotes : option JS.Record :=
  JS.chain federationPluginOptions Federation.remotes.

Definition distPath : string :=
  let directory :=
    JS.chain (JS.chain (Webpack.devServer (compiler this)) Webpack.static)
             Webpack.directory in
  let path := JS.chain (Webpack.output (compiler this)) Webpack.path in
  if JS.truthy_string directory then JS.nullish directory ""
  else if JS.truthy_string path then JS.nullish path ""
  else DIR_DIST I.

Definition outFile : string :=
  path_join I [distPath; DIR_EMITTED_TYPES I; "index.d.ts"].

Definition shouldSyncContinuously : bool :=
  JS.strict_eq_string (Webpack.mode (compiler this)) "development"
  && JS.strict_neq_number
       (JS.chain (options this) Options.downloadTypesWhenIdleIntervalInSeconds)
       (-1).

Definition downloadTypesWhenIdleIntervalInSeconds : Z :=
  let option :=
    JS.chain (options this) Options.downloadTypesWhenIdleIntervalInSeconds in
  if JS.truthy_number option then JS.nullish option 0%Z
  else DEFAULT_DOWNLOAD_TYPES_INTERVAL_IN_SECONDS.

(** The guard of lines 86 and 103:
    [remotes && !this.options?.disableDownladingRemoteTypes]. *)
Definition remotesAndNotDisabledByOption : bool :=
  JS.truthy_object remotes
  && negb (JS.truthy_bool
             (JS.chain (options this) Options.disableDownladingRemoteTypes)).

(** *** The closures of [apply] *)

(** Lines 62-69. *)
Definition compileTypesHook : M unit := fun st =>
  let result := compileTypes I (trace st) exposes outFile in
  (emit (Compiled exposes outFile (isSuccess result)) ;;
   if isSuccess result
   then emit (Rewritten outFile (typeDefinitions result))
   else logger warn [Str "Failed to compile types for exposed modules.";
                     Str (getLoggerHint I (compiler this))]) st.

(** Lines 72-74. *)
Definition downloadTypesHook : M nat :=
  startDownload remotes remoteManifestUrls.

(** Lines 89-95: the callback given to [setInterval]. *)
Definition intervalCallback : M unit :=
  logger log [Now; Str "Downloading types every";
              Num downloadTypesWhenIdleIntervalInSeconds; Str "seconds"] ;;
  _ <- downloadTypesHook ;;
  ret tt.

(** Lines 87-97: reset and create the interval. *)
Definition rearm : M unit :=
  old <- get_recompileIntervalId ;;
  clearInterval old ;;
  id <- setInterval (1000 * downloadTypesWhenIdleIntervalInSeconds) ;;
  set_recompileIntervalId (Some id).

(** Lines 84-101. *)
Definition compileTypesContinuouslyHook : M unit :=
  (if remotesAndNotDisabledByOption then rearm else ret tt) ;;
  compileTypesHook.

(** Lines 110-113: the callback tapped on [afterEmit]. *)
Definition afterEmitCallback : M unit :=
  logger log [Str "Compiling types on afterEmit event"] ;;
  compileTypesContinuouslyHook.

(** *** [apply] *)

(** Lines 108-118: what remains of [apply] once the start-up download has
    settled, or when there is no start-up download. *)
Definition applyAfterDownload : M unit :=
  if JS.truthy_object exposes && negb isCompilationDisabled
  then
    if shouldSyncContinuously
    then tap PLUGIN_NAME
    else
      logger log [Str "Compile types on startup only"] ;;
      compileTypesHook
  else ret tt.

(** Lines 24-106: [apply] up to its only suspension point. *)
Definition apply : M unit :=
  if negb (isEveryUrlValid I (JS.values (JS.nullish remoteManifestUrls [])))
  then
    logger warn [Str "One or more remote manifest URLs are invalid:";
                 Obj remoteManifestUrls] ;;
    logger log [Str "Plugin disabled"]
  else if isCompilationDisabled && isDownloadDisabled
  then
    logger log [Str "Plugin disabled as both type compilation and download features are turned off"]
  else if negb (JS.truthy_string (JS.chain federationPluginOptions Federation.name))
  then
    logger log [Str "Plugin disabled as ModuleFederationPlugin is not configured properly. The `name` option is missing."]
  else if remotesAndNotDisabledByOption
  then
    logger log [Str "Downloading types on startup"] ;;
    promise <- downloadTypesHook ;;
    await promise
  else applyAfterDownload.

(** *** The host: signals delivered to the plugin after [apply] was called *)

Inductive Signal :=
| downloadSettled (n : nat)      (* the promise of download [n] is fulfilled *)
| afterEmit                      (* a build completed *)
| intervalElapsed (id : nat).    (* the delay of timer [id] elapsed *)

Definition deliver (s : Signal) : M unit := fun st =>
  match s with
  | downloadSettled n =>
      if existsb (Nat.eqb n) (inflight st)
      then (resumed <- settle n ;;
            if resumed : bool then applyAfterDownload else ret tt) st
      else (tt, st)
  | afterEmit => for_each (taps st) (fun _ => afterEmitCallback) st
  | intervalElapsed id =>
      if existsb (fun t => (fst t =? id)%nat) (intervals st)
      then intervalCallback st
      else (tt, st)
  end.

Definition step (st : State) (s : Signal) : State := exec (deliver s) st.

(** The state right after the host called [apply]. *)
Definition started : State := exec apply init.

(** The state after the host called [apply] and then delivered [sigs]. *)
Definition run (sigs : list Signal) : State := fold_left step sigs started.

(** What completes start-up: the settling of the download [apply] awaits,
    when it awaits one. *)
Definition boot : list Signal :=
  match awaiting started with
  | Some n => [downloadSettled n]
  | None => []
  end.

(** The state in which the promise returned by [apply] has resolved. *)
Definition startup : State := run boot.

(** None of the three early returns of [apply] (lines 33-54) is taken. *)
Definition passesGates : bool :=
  isEveryUrlValid I (JS.values (JS.nullish remoteManifestUrls []))
  && negb (isCompilationDisabled && isDownloadDisabled)
  && JS.truthy_string (JS.chain federationPluginOptions Federation.name).

End Plugin.

(** *** Observations on traces *)

Definition is_compile (e : Event) : bool :=
  match e with Compiled _ _ _ => true | _ => false end.

Definition is_rewrite (e : Event) : bool :=
  match e with Rewritten _ _ => true | _ => false end.

Definition is_download (e : Event) : bool :=
  match e with DownloadStarted _ _ _ => true | _ => false end.

Definition is_tap (e : Event) : bool :=
  match e with Tapped _ => true | _ => false end.

Definition is_interval_set (e : Event) : bool :=
  match e with IntervalSet _ _ => true | _ => false end.

Definition count (p : Event -> bool) (st : State) : nat :=
  length (filter p (trace st)).

Definition compiles : State -> nat := count is_compile.
Definition downloads : State -> nat := count is_download.

(** The events that happened between [st] and the later state [st']. *)
Definition since (st st' : State) : list Event :=
  skipn (length (trace st)) (history st').

(** Nothing pending, nothing tapped and no live timer: no signal can reach
    the plugin any more. *)
Definition quiescent (st : State) : Prop :=
  inflight st = [] /\ taps st = [] /\ intervals st = [].

(** The file a compile or a rewrite writes is [target]. *)
Definition writes_to (target : string) (e : Event) : Prop :=
  match e with
  | Compiled _ f _ => f = target
  | Rewritten f _ => f = target
  | _ => True
  end.

(** The delay of a timer being set is [ms]. *)
Definition delay_is (ms : Z) (e : Event) : Prop :=
  match e with
  | IntervalSet _ d => d = ms
  | _ => True
  end.

(** What holds in every state of a run that is not continuous. *)
Definition one_shot (st : State) : Prop :=
  taps st = [] /\ intervals st = []
  /\ count is_tap st = 0 /\ count is_interval_set st = 0
  /\ ((awaiting st = None /\ compiles st <= 1) \/ compiles st = 0).

(** The trace of [st] extends [base]: [base] happened first. *)
Definition extends (base : list Event) (st : State) : Prop :=
  exists new, trace st = new ++ base.

(** The timer most recently set in a trace (newest first). *)
Fixpoint last_set (tr : list Event) : option nat :=
  match tr with
  | [] => None
  | IntervalSet id _ :: _ => Some id
  | _ :: tl => last_set tl
  end.

(** Every [setInterval] of a trace comes directly after a [clearInterval]
    of the timer most recently set before it ([undefined] when there is
    none). *)
Fixpoint cancel_then_set (tr : list Event) : Prop :=
  match tr with
  | [] => True
  | IntervalSet _ _ :: tl =>
      match tl with
      | IntervalCleared prev :: rest => prev = last_set rest
      | _ => False
      end /\ cancel_then_set tl
  | _ :: tl => cancel_then_set tl
  end.

(** The bookkeeping of [recompileIntervalId]: it names the timer most
    recently set, and that timer is the only live one. *)
Definition single_timer (st : State) : Prop :=
  recompileIntervalId st = last_set (trace st)
  /\ (match recompileIntervalId st with
      | Some id => exists ms, intervals st = [(id, ms)]
      | None => intervals st = []
      end)
  /\ cancel_then_set (trace st).

(** *** Observations on signals and further state predicates *)

Definition is_afterEmit (s : Signal) : bool :=
  match s with afterEmit => true | _ => false end.


(** The signal that releases an [apply] parked on the start-up download. *)
Definition fulfils_startup (s : Signal) : bool :=
  match s with downloadSettled 0 => true | _ => false end.

(** The continuation of [apply] tapped at most once, and only with nothing
    awaited any more. *)
Definition tapped_at_most_once (st : State) : Prop :=
  (taps st = [] /\ count is_tap st = 0)
  \/ (taps st = [PLUGIN_NAME] /\ count is_tap st = 1 /\ awaiting st = None).

(** No download was ever started and no timer ever set. *)
Definition never_downloaded (st : State) : Prop :=
  downloads st = 0 /\ intervals st = [] /\ count is_interval_set st = 0
  /\ inflight st = [] /\ awaiting st = None.

(** Only the start-up download, if any, was started, and no timer set. *)
Definition idle_free (st : State) : Prop :=
  intervals st = [] /\ count is_interval_set st = 0 /\ downloads st <= 1.

(** Along a trace (newest first), with [later] the event that came next:
    every compile is directly followed by its outcome, a rewrite of the
    same file when it succeeded and a warning when it failed, and every
    rewrite directly follows a successful compile. *)
Fixpoint outcomes (later : option Event) (tr : list Event) : Prop :=
  match tr with
  | [] => True
  | e :: tl =>
      match e with
      | Compiled _ f b =>
          match later with
          | Some (Rewritten f' _) => b = true /\ f' = f
          | Some (Logged warn _) => b = false
          | _ => False
          end
      | Rewritten _ _ =>
          match tl with
          | Compiled _ _ true :: _ => True
          | _ => False
          end
      | _ => True
      end /\ outcomes (Some e) tl
  end.


(** ** A concrete host, used to run the model *)

Module Demo.

(** An instance of the absent modules: URLs are valid when they start with
    "http", the compiler succeeds unless a flag says otherwise. *)
Definition imports (compileOk : bool) : Imports :=
  {| CLOUDBEDS_DEPLOYMENT_ENV_WITH_DISABLED_REMOTE_TYPES_DOWNLOAD := "devbox";
     DIR_DIST := "dist";
     DIR_EMITTED_TYPES := "@types";
     getRemoteManifestUrls := fun _ => None;
     isValidUrl := fun u => String.prefix "http" u;
     compileTypes := fun _ _ _ =>
       {| isSuccess := compileOk; typeDefinitions := "declare module" |};
     getLoggerHint := fun _ => "Use --log-level to see more";
     path_join := String.concat "/" |}.

(** The same, with one manifest URL configured for the remote. *)
Definition importsWithManifest (url : string) : Imports :=
  {| CLOUDBEDS_DEPLOYMENT_ENV_WITH_DISABLED_REMOTE_TYPES_DOWNLOAD := "devbox";
     DIR_DIST := "dist";
     DIR_EMITTED_TYPES := "@types";
     getRemoteManifestUrls := fun _ => Some [("app2", url)];
     isValidUrl := fun u => String.prefix "http" u;
     compileTypes := fun _ _ _ =>
       {| isSuccess := true; typeDefinitions := "declare module" |};
     getLoggerHint := fun _ => "Use --log-level to see more";
     path_join := String.concat "/" |}.

Definition theRemotes : JS.Record := [("app2", "app2@http://x/remoteEntry.js")].
Definition theExposes : JS.Record := [("./Button", "./src/Button")].

Definition federation (e r : option JS.Record) : Webpack.PluginInstance :=
  {| Webpack.constructor_name := "ModuleFederationPlugin";
     Webpack._options :=
       Some {| Federation.name := Some "app1";
               Federation.exposes := e;
               Federation.remotes := r |} |}.

Definition host (mode : string) (e r : option JS.Record) : Webpack.Compiler :=
  {| Webpack.mode := Some mode;
     Webpack.plugins :=
       [ {| Webpack.constructor_name := "HtmlWebpackPlugin";
            Webpack._options := None |};
         federation e r ];
     Webpack.devServer := None;
     Webpack.output := Some {| Webpack.path := Some "/app/build" |} |}.

(** Development build, remotes and exposes configured, no plugin options. *)
Definition development : Invocation :=
  {| options := None;
     compiler := host "development" (Some theExposes) (Some theRemotes);
     DEPLOYMENT_ENV := None |}.

(** The same build in the deployment environment that is meant to switch
    the downloads off. *)
Definition devbox : Invocation :=
  {| options := None;
     compiler := host "development" (Some theExposes) (Some theRemotes);
     DEPLOYMENT_ENV := Some "devbox" |}.

(** One-shot build, remotes and exposes configured. *)
Definition production : Invocation :=
  {| options := None;
     compiler := host "production" (Some theExposes) (Some theRemotes);
     DEPLOYMENT_ENV := None |}.

(** Development build with the idle interval set to the sentinel. *)
Definition sentinel : Invocation :=
  {| options :=
       Some {| Options.disableDownladingRemoteTypes := None;
               Options.disableTypeCompilation := None;
               Options.downloadTypesWhenIdleIntervalInSeconds := Some (-1)%Z |};
     compiler := host "development" (Some theExposes) (Some theRemotes);
     DEPLOYMENT_ENV := None |}.

(** Development build that only exposes modules. *)
Definition exposesOnly : Invocation :=
  {| options := None;
     compiler := host "development" (Some theExposes) None;
     DEPLOYMENT_ENV := None |}.

(** A dev server with a static directory next to a build output path. *)
Definition withDevServer : Invocation :=
  {| options := None;
     compiler :=
       {| Webpack.mode := Some "production";
          Webpack.plugins := [federation (Some theExposes) None];
          Webpack.devServer :=
            Some {| Webpack.static :=
                      Some {| Webpack.directory := Some "/app/public" |} |};
          Webpack.output := Some {| Webpack.path := Some "/app/build" |} |};
     DEPLOYMENT_ENV := None |}.

(** Type compilation switched off, in the marked deployment environment. *)
Definition compileOffInDevbox : Invocation :=
  {| options :=
       Some {| Options.disableDownladingRemoteTypes := None;
               Options.disableTypeCompilation := Some true;
               Options.downloadTypesWhenIdleIntervalInSeconds := None |};
     compiler := host "development" (Some theExposes) (Some theRemotes);
     DEPLOYMENT_ENV := Some "devbox" |}.

(** The same, with the download option explicitly false. *)
Definition downloadOnInDevbox : Invocation :=
  {| options :=
       Some {| Options.disableDownladingRemoteTypes := Some false;
               Options.disableTypeCompilation := Some true;
               Options.downloadTypesWhenIdleIntervalInSeconds := None |};
     compiler := host "development" (Some theExposes) (Some theRemotes);
     DEPLOYMENT_ENV := Some "devbox" |}.

(** Downloads switched off by the explicit option. *)
Definition downloadOff : Invocation :=
  {| options :=
       Some {| Options.disableDownladingRemoteTypes := Some true;
               Options.disableTypeCompilation := None;
               Options.downloadTypesWhenIdleIntervalInSeconds := None |};
     compiler := host "development" (Some theExposes) (Some theRemotes);
     DEPLOYMENT_ENV := None |}.

(** A build without a ModuleFederationPlugin. *)
Definition noFederation : Invocation :=
  {| options := None;
     compiler :=
       {| Webpack.mode := Some "development";
          Webpack.plugins :=
            [ {| Webpack.constructor_name := "HtmlWebpackPlugin";
                 Webpack._options := None |} ];
          Webpack.devServer := None;
          Webpack.output := None |};
     DEPLOYMENT_ENV := None |}.

(** Two federation plugins: an unnamed one before a well configured one. *)
Definition unnamedFirst : Webpack.PluginInstance :=
  {| Webpack.constructor_name := "ModuleFederationPlugin";
     Webpack._options :=
       Some {| Federation.name := None;
               Federation.exposes := None;
               Federation.remotes := None |} |}.

Definition twoFederations : Invocation :=
  {| options := None;
     compiler :=
       {| Webpack.mode := Some "production";
          Webpack.plugins :=
            [ {| Webpack.constructor_name := "HtmlWebpackPlugin";
                 Webpack._options := None |};
              unnamedFirst;
              federation (Some theExposes) (Some theRemotes) ];
          Webpack.devServer := None;
          Webpack.output := None |};
     DEPLOYMENT_ENV := None |}.

End Demo.

(** ** Properties *)

Section Properties.

Variable I : Imports.
Variable this : Invocation.

(** *** Generic facts about runs *)

Lemma run_app (sigs sigs' : list Signal) :
  run I this (sigs ++ sigs') = fold_left (step I this) sigs' (run I this sigs).
Proof. unfold run. now rewrite fold_left_app. Qed.

Lemma run_snoc (sigs : list Signal) (s : Signal) :
  run I this (sigs ++ [s]) = step I this (run I this sigs) s.
Proof. now rewrite run_app. Qed.

(** A property kept by every step holds after any number of steps. *)
Lemma steps_invariant (P : State -> Prop) :
  (forall st s, P st -> P (step I this st s)) ->
  forall sigs st, P st -> P (fold_left (step I this) sigs st).
Proof.
  intros Hstep sigs. induction sigs as [|s sigs IH]; intros st Hst.
  - exact Hst.
  - simpl. apply IH. now apply Hstep.
Qed.

(** An invariant of the state machine holds in every reachable state. *)
Lemma run_invariant (P : State -> Prop) :
  P (started I this) ->
  (forall st s, P st -> P (step I this st s)) ->
  forall sigs, P (run I this sigs).
Proof. intros Hinit Hstep sigs. unfold run. now apply steps_invariant. Qed.

Lemma exec_bind {A B : Type} (c : M A) (k : A -> M B) (st : State) :
  exec (bind c k) st = exec (k (fst (c st))) (snd (c st)).
Proof. unfold exec, bind. now destruct (c st). Qed.

Lemma for_each_invariant {A : Type} (P : State -> Prop) (c : A -> M unit) :
  (forall a st, P st -> P (exec (c a) st)) ->
  forall l st, P st -> P (exec (for_each l c) st).
Proof.
  intros Hc l. induction l as [|a l IH]; intros st Hst.
  - exact Hst.
  - simpl. rewrite exec_bind. apply IH. now apply Hc.
Qed.

Lemma for_each_singleton {A : Type} (c : A -> M unit) (a : A) (st : State) :
  exec (for_each [a] c) st = exec (c a) st.
Proof. cbn [for_each]. now rewrite exec_bind. Qed.

(** With nothing pending, nothing tapped and no live timer, every signal
    leaves the plugin untouched. *)
Lemma quiescent_step (st : State) (s : Signal) :
  quiescent st -> step I this st s = st.
Proof.
  intros (Hd & Ht & Hi). unfold step, exec, deliver.
  destruct s; rewrite ?Hd, ?Ht, ?Hi; reflexivity.
Qed.

Lemma quiescent_steps (sigs : list Signal) (st : State) :
  quiescent st -> fold_left (step I this) sigs st = st.
Proof.
  intros Hq. induction sigs as [|s sigs IH]; simpl.
  - reflexivity.
  - now rewrite quiescent_step.
Qed.

Lemma quiescent_run (sigs : list Signal) :
  quiescent (started I this) -> run I this sigs = started I this.
Proof. apply quiescent_steps. Qed.

(** The events appended between two states, when the later trace is an
    extension of the earlier one. *)
Lemma since_extension (st st' : State) (new : list Event) :
  trace st' = rev new ++ trace st -> since st st' = new.
Proof.
  intros H. unfold since, history. rewrite H, rev_app_distr, rev_involutive.
  rewrite <- (length_rev (trace st)), skipn_app, Nat.sub_diag, skipn_all.
  reflexivity.
Qed.

(** *** What each closure does to the state *)

Lemma compileTypesHook_eq (st : State) :
  exec (compileTypesHook I this) st
  = push [if isSuccess (compileTypes I (trace st) (exposes this) (outFile I this))
          then Rewritten (outFile I this)
                 (typeDefinitions
                    (compileTypes I (trace st) (exposes this) (outFile I this)))
          else Logged warn [Str "Failed to compile types for exposed modules.";
                            Str (getLoggerHint I (compiler this))];
          Compiled (exposes this) (outFile I this)
            (isSuccess (compileTypes I (trace st) (exposes this) (outFile I this)))]
         st.
Proof.
  unfold exec, compileTypesHook.
  destruct (isSuccess _); reflexivity.
Qed.

Lemma rearm_eq (st : State) :
  exec (rearm this) st
  = {| trace :=
         IntervalSet (nextIntervalId st)
                     (1000 * downloadTypesWhenIdleIntervalInSeconds this)
         :: IntervalCleared (recompileIntervalId st) :: trace st;
       awaiting := awaiting st;
       inflight := inflight st;
       nextDownload := nextDownload st;
       taps := taps st;
       intervals :=
         (nextIntervalId st, (1000 * downloadTypesWhenIdleIntervalInSeconds this)%Z)
         :: match recompileIntervalId st with
            | Some i => filter (fun t => negb (fst t =? i)%nat) (intervals st)
            | None => intervals st
            end;
       nextIntervalId := S (nextIntervalId st);
       recompileIntervalId := Some (nextIntervalId st) |}.
Proof. reflexivity. Qed.

Lemma compileTypesContinuouslyHook_eq (st : State) :
  exec (compileTypesContinuouslyHook I this) st
  = exec (compileTypesHook I this)
         (if remotesAndNotDisabledByOption this then exec (rearm this) st else st).
Proof.
  unfold compileTypesContinuouslyHook. rewrite exec_bind.
  destruct (remotesAndNotDisabledByOption this); reflexivity.
Qed.

Lemma afterEmitCallback_eq (st : State) :
  exec (afterEmitCallback I this) st
  = exec (compileTypesContinuouslyHook I this)
         (push [Logged log [Str "Compiling types on afterEmit event"]] st).
Proof. unfold afterEmitCallback. now rewrite exec_bind. Qed.

Lemma intervalCallback_eq (st : State) :
  exec (intervalCallback I this) st
  = {| trace :=
         DownloadStarted (nextDownload st) (remotes this) (remoteManifestUrls I this)
         :: Logged log [Now; Str "Downloading types every";
                        Num (downloadTypesWhenIdleIntervalInSeconds this);
                        Str "seconds"]
         :: trace st;
       awaiting := awaiting st;
       inflight := nextDownload st :: inflight st;
       nextDownload := S (nextDownload st);
       taps := taps st;
       intervals := intervals st;
       nextIntervalId := nextIntervalId st;
       recompileIntervalId := recompileIntervalId st |}.
Proof. reflexivity. Qed.

Lemma applyAfterDownload_eq (st : State) :
  exec (applyAfterDownload I this) st
  = if JS.truthy_object (exposes this) && negb (isCompilationDisabled this)
    then if shouldSyncContinuously this
         then exec (tap PLUGIN_NAME) st
         else exec (compileTypesHook I this)
                   (push [Logged log [Str "Compile types on startup only"]] st)
    else st.
Proof.
  unfold applyAfterDownload.
  destruct (_ && _); [|reflexivity].
  destruct (shouldSyncContinuously this); [reflexivity|].
  now rewrite exec_bind.
Qed.

(** The state in which [apply] is parked on the start-up download. *)
Lemma started_passing_gates :
  passesGates I this = true ->
  started I this
  = if remotesAndNotDisabledByOption this
    then {| trace :=
              [DownloadStarted 0 (remotes this) (remoteManifestUrls I this);
               Logged log [Str "Downloading types on startup"]];
            awaiting := Some 0;
            inflight := [0];
            nextDownload := 1;
            taps := [];
            intervals := [];
            nextIntervalId := 0;
            recompileIntervalId := None |}
    else exec (applyAfterDownload I this) init.
Proof.
  unfold passesGates, started, apply. intros Hgates.
  apply andb_prop in Hgates as [Hgates Hname].
  apply andb_prop in Hgates as [Hurls Hboth].
  rewrite Hurls, Hname. apply negb_true_iff in Hboth. rewrite Hboth.
  cbn [negb]. destruct (remotesAndNotDisabledByOption this); reflexivity.
Qed.

(** A run stopped by one of the three gates only logs. *)
Lemma started_failing_gates :
  passesGates I this = false ->
  quiescent (started I this)
  /\ compiles (started I this) = 0
  /\ downloads (started I this) = 0
  /\ recompileIntervalId (started I this) = None
  /\ awaiting (started I this) = None
  /\ Forall (fun e => match e with Logged _ _ => True | _ => False end)
            (trace (started I this)).
Proof.
  unfold passesGates, started, apply. intros Hgates.
  destruct (isEveryUrlValid I _); cbn [negb andb] in *.
  - destruct (isCompilationDisabled this && isDownloadDisabled I this);
      cbn [negb andb] in *.
    + repeat split; repeat constructor.
    + rewrite Hgates. cbn [negb]. repeat split; repeat constructor.
  - repeat split; repeat constructor.
Qed.

(** *** Case analysis on one step of the host *)

(** What is known when each closure runs: the continuation of [apply] only
    runs when the awaited download settles, the afterEmit callback once per
    tap, and the interval callback only for a live timer. *)
Lemma step_cases_in_context (P : State -> Prop) (st : State) (s : Signal) :
  P st ->
  (forall n, existsb (Nat.eqb n) (inflight st) = true -> awaiting st = Some n ->
     P (exec (applyAfterDownload I this) (snd (settle n st)))) ->
  (forall n, existsb (Nat.eqb n) (inflight st) = true -> awaiting st <> Some n ->
     P (snd (settle n st))) ->
  P (exec (for_each (taps st) (fun _ => afterEmitCallback I this)) st) ->
  (forall id, existsb (fun t => (fst t =? id)%nat) (intervals st) = true ->
     P (exec (intervalCallback I this) st)) ->
  P (step I this st s).
Proof.
  intros Hst Hresume Hsettle Hemit Hfire.
  unfold step, exec, deliver. destruct s as [n| |id].
  - destruct (existsb (Nat.eqb n) (inflight st)) eqn:Hin; [|exact Hst].
    specialize (Hresume n Hin). specialize (Hsettle n Hin).
    unfold bind, exec in *. unfold settle in *. cbn [fst snd] in *.
    destruct (awaiting st) as [m|]; cbn [fst snd] in *.
    + destruct (Nat.eqb_spec m n) as [Heq|Hne].
      * apply Hresume. now rewrite Heq.
      * apply Hsettle. congruence.
    + now apply Hsettle.
  - exact Hemit.
  - destruct (existsb _ _) eqn:E; [|exact Hst].
    now apply (Hfire id).
Qed.

(** A property of states that every closure of the plugin preserves is
    preserved by every signal. *)
Lemma step_cases (P : State -> Prop) :
  (forall st n, P st -> P (snd (settle n st))) ->
  (forall st, P st -> P (exec (applyAfterDownload I this) st)) ->
  (forall st, P st -> P (exec (afterEmitCallback I this) st)) ->
  (forall st, P st -> P (exec (intervalCallback I this) st)) ->
  forall st s, P st -> P (step I this st s).
Proof.
  intros Hsettle Hcont Hemit Hfire st s Hst.
  apply step_cases_in_context; auto.
  now apply (for_each_invariant P (fun _ : string => afterEmitCallback I this)).
Qed.

(** *** Which events a run can contain *)

(** A property of events that holds of every event the closures can emit
    holds of every event of every run. *)
Lemma trace_invariant (Q : Event -> Prop) :
  (forall l args, Q (Logged l args)) ->
  (forall n, Q (DownloadStarted n (remotes this) (remoteManifestUrls I this))) ->
  (forall n, Q (DownloadSettled n)) ->
  (forall b, Q (Compiled (exposes this) (outFile I this) b)) ->
  (forall td, Q (Rewritten (outFile I this) td)) ->
  Q (Tapped PLUGIN_NAME) ->
  (forall id, Q (IntervalCleared id)) ->
  (forall id, Q (IntervalSet id (1000 * downloadTypesWhenIdleIntervalInSeconds this))) ->
  forall sigs, Forall Q (trace (run I this sigs)).
Proof.
  intros Hlog Hstart Hsettled Hcompiled Hrewritten Htapped Hcleared Hset.
  assert (Hhook : forall st, Forall Q (trace st) ->
                    Forall Q (trace (exec (compileTypesHook I this) st))).
  { intros st Hst. rewrite compileTypesHook_eq. cbn [trace push app].
    destruct (isSuccess _); repeat constructor; auto. }
  assert (Hcont : forall st, Forall Q (trace st) ->
                    Forall Q (trace (exec (applyAfterDownload I this) st))).
  { intros st Hst. rewrite applyAfterDownload_eq.
    destruct (_ && _); [|exact Hst].
    destruct (shouldSyncContinuously this).
    - cbn. constructor; auto.
    - apply Hhook. cbn. constructor; auto. }
  apply (run_invariant (fun st => Forall Q (trace st))).
  - destruct (passesGates I this) eqn:Hgates.
    + rewrite (started_passing_gates Hgates).
      destruct (remotesAndNotDisabledByOption this).
      * cbn. repeat constructor; auto.
      * apply Hcont. constructor.
    + destruct (started_failing_gates Hgates) as (_ & _ & _ & _ & _ & Hlogs).
      eapply Forall_impl; [|exact Hlogs].
      intros [] Hl; try contradiction. apply Hlog.
  - apply (step_cases (fun st => Forall Q (trace st))).
    + intros st n Hst. cbn. constructor; auto.
    + exact Hcont.
    + intros st Hst. rewrite afterEmitCallback_eq, compileTypesContinuouslyHook_eq.
      apply Hhook. destruct (remotesAndNotDisabledByOption this).
      * rewrite rearm_eq. cbn. repeat constructor; auto.
      * cbn. constructor; auto.
    + intros st Hst. rewrite intervalCallback_eq. cbn. repeat constructor; auto.
Qed.

(** *** Gate: invalid manifest URLs (lines 33-38) *)

Lemma invalid_url_detected (u : string) :
  In u (JS.values (JS.nullish (remoteManifestUrls I this) [])) ->
  isValidUrl I u = false ->
  isEveryUrlValid I (JS.values (JS.nullish (remoteManifestUrls I this) [])) = false.
Proof.
  intros Hin Hbad. unfold isEveryUrlValid.
  destruct (forallb _ _) eqn:E; [|reflexivity].
  rewrite forallb_forall in E. rewrite (E u Hin) in Hbad. discriminate.
Qed.

(** C4. When at least one configured remote manifest URL is malformed, the
    plugin warns about the URLs, logs that it is disabled and returns; in
    every later state, whatever the other settings and whatever signals
    the host delivers, the trace consists of these two log entries only:
    no compile, no download, no tap and no timer. *)
Theorem invalid_manifest_url_disables_plugin (u : string) (sigs : list Signal) :
  In u (JS.values (JS.nullish (remoteManifestUrls I this) [])) ->
  isValidUrl I u = false ->
  history (run I this sigs)
    = [Logged warn [Str "One or more remote manifest URLs are invalid:";
                    Obj (remoteManifestUrls I this)];
       Logged log [Str "Plugin disabled"]]
  /\ compiles (run I this sigs) = 0
  /\ downloads (run I this sigs) = 0
  /\ taps (run I this sigs) = []
  /\ intervals (run I this sigs) = [].
Proof.
  intros Hin Hbad.
  pose proof (invalid_url_detected u Hin Hbad) as Hgate.
  assert (Hstart : started I this
                   = push [Logged log [Str "Plugin disabled"];
                           Logged warn [Str "One or more remote manifest URLs are invalid:";
                                        Obj (remoteManifestUrls I this)]] init).
  { unfold started, apply. now rewrite Hgate. }
  rewrite quiescent_run; rewrite Hstart; repeat split; reflexivity.
Qed.

(** *** compileTypesHook (lines 62-69) *)

(** C8. A compile invocation whose compiler result has [isSuccess = false]
    records the compile, then one warning carrying the logger hint, and
    nothing else; the rewrite pass is invoked exactly when the compiler
    reports success; the hook always returns, leaving the taps, the timers
    and the suspended [apply] as they were. *)
Theorem compile_failure_warns_and_skips_rewrite (st : State) :
  let result := compileTypes I (trace st) (exposes this) (outFile I this) in
  let st' := exec (compileTypesHook I this) st in
  (isSuccess result = false ->
     since st st'
     = [Compiled (exposes this) (outFile I this) false;
        Logged warn [Str "Failed to compile types for exposed modules.";
                     Str (getLoggerHint I (compiler this))]])
  /\ (isSuccess result = true ->
        since st st'
        = [Compiled (exposes this) (outFile I this) true;
           Rewritten (outFile I this) (typeDefinitions result)])
  /\ existsb is_rewrite (since st st') = isSuccess result
  /\ taps st' = taps st
  /\ intervals st' = intervals st
  /\ awaiting st' = awaiting st
  /\ inflight st' = inflight st.
Proof.
  intros result st'. subst st'. rewrite compileTypesHook_eq. fold result.
  assert (Hsince : since st (push [if isSuccess result
                                   then Rewritten (outFile I this) (typeDefinitions result)
                                   else Logged warn [Str "Failed to compile types for exposed modules.";
                                                     Str (getLoggerHint I (compiler this))];
                                   Compiled (exposes this) (outFile I this) (isSuccess result)] st)
                   = [Compiled (exposes this) (outFile I this) (isSuccess result);
                      if isSuccess result
                      then Rewritten (outFile I this) (typeDefinitions result)
                      else Logged warn [Str "Failed to compile types for exposed modules.";
                                        Str (getLoggerHint I (compiler this))]]).
  { now apply since_extension. }
  rewrite Hsince. destruct (isSuccess result); repeat split; discriminate.
Qed.

(** *** The output target (lines 56-59) *)

(** C10. The declaration file is [path.join(dir, DIR_EMITTED_TYPES,
    'index.d.ts')], where [dir] is the dev-server static directory when
    one is configured (a non-empty string), else the build output path
    when one is configured, else [DIR_DIST]; every compile and every
    rewrite of every run writes to that one file. *)
Theorem emitted_types_path_precedence :
  let directory :=
    JS.chain (JS.chain (Webpack.devServer (compiler this)) Webpack.static)
             Webpack.directory in
  let path := JS.chain (Webpack.output (compiler this)) Webpack.path in
  (forall d, directory = Some d -> d <> "" ->
     outFile I this = path_join I [d; DIR_EMITTED_TYPES I; "index.d.ts"])
  /\ (forall p, JS.truthy_string directory = false ->
        path = Some p -> p <> "" ->
        outFile I this = path_join I [p; DIR_EMITTED_TYPES I; "index.d.ts"])
  /\ (JS.truthy_string directory = false -> JS.truthy_string path = false ->
        outFile I this
        = path_join I [DIR_DIST I; DIR_EMITTED_TYPES I; "index.d.ts"])
  /\ (forall sigs e, In e (history (run I this sigs)) ->
        writes_to (outFile I this) e).
Proof.
  intros directory path. unfold outFile, distPath. fold directory path.
  repeat split.
  - intros d Hd Hne. rewrite Hd. simpl.
    destruct (String.eqb_spec d ""); [contradiction|reflexivity].
  - intros p Hdir Hp Hne. rewrite Hdir, Hp. simpl.
    destruct (String.eqb_spec p ""); [contradiction|reflexivity].
  - intros Hdir Hp. now rewrite Hdir, Hp.
  - intros sigs e Hin. unfold history in Hin. apply In_rev in Hin.
    assert (H : Forall (writes_to (path_join I [distPath I this; DIR_EMITTED_TYPES I; "index.d.ts"]))
                       (trace (run I this sigs))).
    { apply trace_invariant; intros; cbn; auto. }
    rewrite Forall_forall in H. now apply H.
Qed.

(** *** The idle interval and its sentinel (lines 78-82, 108-118) *)

Lemma one_shot_run (sigs : list Signal) :
  shouldSyncContinuously this = false -> one_shot (run I this sigs).
Proof.
  intros Hmode.
  assert (Hcont : forall st, taps st = [] -> intervals st = [] ->
                    count is_tap st = 0 -> count is_interval_set st = 0 ->
                    awaiting st = None -> compiles st = 0 ->
                    one_shot (exec (applyAfterDownload I this) st)).
  { intros st Ht Hi Hnt Hns Ha Hc. rewrite applyAfterDownload_eq, Hmode.
    unfold one_shot, compiles, count in *.
    destruct (_ && _).
    - rewrite compileTypesHook_eq. cbn [push trace app taps intervals awaiting].
      destruct (isSuccess _); cbn; rewrite ?Hnt, ?Hns, ?Hc; auto 10.
    - rewrite Hc. auto 10. }
  apply (run_invariant one_shot).
  - destruct (passesGates I this) eqn:Hgates.
    + rewrite (started_passing_gates Hgates).
      destruct (remotesAndNotDisabledByOption this).
      * unfold one_shot, compiles, count. cbn. auto 10.
      * now apply Hcont.
    + destruct (started_failing_gates Hgates)
        as ((_ & Ht & Hi) & Hc & _ & _ & Ha & Hlogs).
      unfold one_shot. rewrite Hc.
      assert (Hnone : forall p, (forall l a, p (Logged l a) = false) ->
                        count p (started I this) = 0).
      { intros p Hp. unfold count.
        induction Hlogs as [|e tr He _ IH]; [reflexivity|].
        destruct e; try contradiction. cbn. now rewrite Hp. }
      rewrite !Hnone by reflexivity. auto 10.
  - intros st s (Ht & Hi & Hnt & Hns & Hc).
    apply step_cases_in_context.
    + repeat split; assumption.
    + intros n _ Hn. destruct Hc as [[Hnone _]|Hzero]; [congruence|].
      apply Hcont; try assumption.
      unfold settle. cbn. rewrite Hn, Nat.eqb_refl. reflexivity.
    + intros n _ Hn. unfold one_shot, compiles, count in *. cbn.
      repeat split; try assumption.
      destruct Hc as [[Hnone Hle]|Hzero]; [left|right; assumption].
      rewrite Hnone. split; [reflexivity|assumption].
    + rewrite Ht. repeat split; assumption.
    + intros id Hlive. rewrite Hi in Hlive. discriminate.
Qed.

(** C9. The idle interval is the option when it is present and nonzero and
    60 seconds otherwise, and it is the delay of every timer the plugin
    sets; when the option is the sentinel -1 no afterEmit callback is ever
    tapped, no timer is ever set and at most one compile runs, whatever
    signals the host delivers. *)
Theorem idle_interval_default_and_sentinel :
  let option :=
    JS.chain (options this) Options.downloadTypesWhenIdleIntervalInSeconds in
  (forall n, option = Some n -> n <> 0%Z ->
     downloadTypesWhenIdleIntervalInSeconds this = n)
  /\ (option = None \/ option = Some 0%Z ->
        downloadTypesWhenIdleIntervalInSeconds this = 60%Z)
  /\ (forall sigs id ms, In (IntervalSet id ms) (history (run I this sigs)) ->
        ms = (1000 * downloadTypesWhenIdleIntervalInSeconds this)%Z)
  /\ (option = Some (-1)%Z ->
      forall sigs,
        taps (run I this sigs) = []
        /\ count is_tap (run I this sigs) = 0
        /\ intervals (run I this sigs) = []
        /\ count is_interval_set (run I this sigs) = 0
        /\ compiles (run I this sigs) <= 1).
Proof.
  intros option. repeat apply conj.
  - intros n Hn Hne. unfold downloadTypesWhenIdleIntervalInSeconds.
    fold option. rewrite Hn. simpl.
    destruct (Z.eqb_spec n 0); [contradiction|reflexivity].
  - intros [Hn|Hn]; unfold downloadTypesWhenIdleIntervalInSeconds;
      fold option; rewrite Hn; reflexivity.
  - intros sigs id ms Hin. unfold history in Hin. apply In_rev in Hin.
    assert (H : Forall (delay_is (1000 * downloadTypesWhenIdleIntervalInSeconds this))
                       (trace (run I this sigs))).
    { apply trace_invariant; intros; cbn; auto. }
    rewrite Forall_forall in H. exact (H _ Hin).
  - intros Hn sigs.
    assert (Hmode : shouldSyncContinuously this = false).
    { unfold shouldSyncContinuously. fold option. rewrite Hn. simpl.
      apply andb_false_r. }
    destruct (one_shot_run sigs Hmode) as (Ht & Hi & Hnt & Hns & Hc).
    repeat split; try assumption.
    destruct Hc as [[_ Hle]|Hzero]; [assumption|]. rewrite Hzero. lia.
Qed.

(** *** The interval callback (lines 88-97) *)

Lemma live_timer_fires (st : State) (id : nat) :
  existsb (fun t => (fst t =? id)%nat) (intervals st) = true ->
  step I this st (intervalElapsed id) = exec (intervalCallback I this) st.
Proof. intros Hlive. unfold step, exec, deliver. now rewrite Hlive. Qed.

(** C2 (as the code has it). Every firing of a live idle-interval timer
    logs the interval and starts one download for the configured remotes
    with the manifest URLs, and does nothing else: no compile, no rewrite,
    and the taps and the timers stay as they were. *)
Theorem interval_fire_downloads_only (st : State) (id : nat) :
  existsb (fun t => (fst t =? id)%nat) (intervals st) = true ->
  let st' := step I this st (intervalElapsed id) in
  since st st'
  = [Logged log [Now; Str "Downloading types every";
                 Num (downloadTypesWhenIdleIntervalInSeconds this);
                 Str "seconds"];
     DownloadStarted (nextDownload st) (remotes this) (remoteManifestUrls I this)]
  /\ downloads st' = S (downloads st)
  /\ compiles st' = compiles st
  /\ taps st' = taps st
  /\ intervals st' = intervals st.
Proof.
  intros Hlive st'. subst st'.
  rewrite (live_timer_fires st id Hlive), intervalCallback_eq.
  repeat split. now apply since_extension.
Qed.

(** *** The single timer (lines 78-101) *)

Lemma rearm_single_timer (st : State) :
  single_timer st -> single_timer (exec (rearm this) st).
Proof.
  intros (Hid & Hlive & Hord). rewrite rearm_eq. unfold single_timer.
  cbn [trace intervals recompileIntervalId last_set cancel_then_set].
  repeat split; try assumption.
  destruct (recompileIntervalId st) as [old|].
  - destruct Hlive as [ms ->]. cbn. rewrite Nat.eqb_refl. cbn. eauto.
  - rewrite Hlive. eauto.
Qed.

(** Events other than [setInterval] leave the bookkeeping alone. *)
Lemma push_single_timer (es : list Event) (st : State) :
  forallb (fun e => negb (is_interval_set e)) es = true ->
  single_timer st -> single_timer (push es st).
Proof.
  intros Hes (Hid & Hlive & Hord). unfold single_timer.
  cbn [push trace intervals recompileIntervalId].
  induction es as [|e es IH]; [auto|].
  cbn [forallb] in Hes. apply andb_prop in Hes as [He Hes].
  destruct (IH Hes) as (Hid' & _ & Hord').
  destruct e; try discriminate He; cbn; auto.
Qed.

Lemma compileTypesHook_single_timer (st : State) :
  single_timer st -> single_timer (exec (compileTypesHook I this) st).
Proof.
  intros Hst. rewrite compileTypesHook_eq.
  apply push_single_timer; [|exact Hst]. now destruct (isSuccess _).
Qed.

Lemma single_timer_run (sigs : list Signal) :
  single_timer (run I this sigs).
Proof.
  assert (Hcont : forall st, single_timer st ->
                    single_timer (exec (applyAfterDownload I this) st)).
  { intros st Hst. rewrite applyAfterDownload_eq.
    destruct (_ && _); [|exact Hst].
    destruct (shouldSyncContinuously this).
    - destruct Hst as (Hid & Hlive & Hord). unfold single_timer. cbn. auto.
    - apply compileTypesHook_single_timer. now apply (push_single_timer [_]). }
  apply (run_invariant single_timer).
  - destruct (passesGates I this) eqn:Hgates.
    + rewrite (started_passing_gates Hgates).
      destruct (remotesAndNotDisabledByOption this).
      * unfold single_timer. cbn. auto.
      * apply Hcont. unfold single_timer. cbn. auto.
    + destruct (started_failing_gates Hgates)
        as ((_ & _ & Hi) & _ & _ & Hr & _ & Hlogs).
      unfold single_timer. rewrite Hr, Hi.
      induction Hlogs as [|e tr He _ IH]; [cbn; auto|].
      destruct e; try contradiction. cbn. exact IH.
  - apply (step_cases single_timer).
    + intros st n (Hid & Hlive & Hord). unfold single_timer. cbn. auto.
    + exact Hcont.
    + intros st Hst. rewrite afterEmitCallback_eq, compileTypesContinuouslyHook_eq.
      apply compileTypesHook_single_timer.
      pose proof (push_single_timer
                    [Logged log [Str "Compiling types on afterEmit event"]] st
                    eq_refl Hst) as Hlogged.
      destruct (remotesAndNotDisabledByOption this); [|exact Hlogged].
      now apply rearm_single_timer.
    + intros st (Hid & Hlive & Hord). rewrite intervalCallback_eq.
      unfold single_timer. cbn. auto.
Qed.

(** Re-arming leaves a timer behind, whatever the state before. *)
Lemma afterEmitCallback_arms (st : State) :
  remotesAndNotDisabledByOption this = true ->
  recompileIntervalId (exec (afterEmitCallback I this) st) <> None.
Proof.
  intros Hguard.
  rewrite afterEmitCallback_eq, compileTypesContinuouslyHook_eq, Hguard.
  rewrite compileTypesHook_eq, rearm_eq. discriminate.
Qed.

(** C7. In every reachable state at most one interval timer is alive, and
    it is the one recorded in [recompileIntervalId]; every [setInterval] in
    the trace comes directly after the [clearInterval] of the timer set
    before it; a build-completion signal that re-arms leaves exactly one
    timer alive, however many came before; and the firing of a live timer
    starts exactly one download. *)
Theorem single_timer_invariant (sigs : list Signal) :
  let st := run I this sigs in
  length (intervals st) <= 1
  /\ (forall id ms, In (id, ms) (intervals st) -> recompileIntervalId st = Some id)
  /\ cancel_then_set (trace st)
  /\ (remotesAndNotDisabledByOption this = true -> taps st <> [] ->
        length (intervals (step I this st afterEmit)) = 1)
  /\ (forall id, existsb (fun t => (fst t =? id)%nat) (intervals st) = true ->
        downloads (step I this st (intervalElapsed id)) = S (downloads st)).
Proof.
  intros st. subst st.
  destruct (single_timer_run sigs) as (Hid & Hlive & Hord).
  repeat apply conj.
  - destruct (recompileIntervalId _); [destruct Hlive as [ms ->]|rewrite Hlive];
      simpl; lia.
  - intros id ms Hin.
    destruct (recompileIntervalId _) as [old|]; [destruct Hlive as [ms' Heq]|];
      rewrite ?Heq, ?Hlive in Hin; simpl in Hin.
    + destruct Hin as [[= -> _]|[]]. reflexivity.
    + contradiction.
  - exact Hord.
  - intros Hguard Htaps.
    pose proof (single_timer_run (sigs ++ [afterEmit])) as (_ & Hlive' & _).
    rewrite run_snoc in Hlive'.
    assert (Harmed : recompileIntervalId (step I this (run I this sigs) afterEmit) <> None).
    { unfold step, exec, deliver. destruct (taps (run I this sigs)) as [|a l];
        [contradiction|].
      change (recompileIntervalId
                (exec (for_each (a :: l) (fun _ : string => afterEmitCallback I this))
                      (run I this sigs)) <> None).
      cbn [for_each]. rewrite exec_bind.
      apply (for_each_invariant (fun s => recompileIntervalId s <> None)
                                (fun _ : string => afterEmitCallback I this)).
      - intros _ s _. now apply afterEmitCallback_arms.
      - now apply afterEmitCallback_arms. }
    destruct (recompileIntervalId (step I this (run I this sigs) afterEmit));
      [|now elim Harmed].
    destruct Hlive' as [ms ->]. reflexivity.
  - intros id Hlive_id.
    now rewrite (live_timer_fires _ id Hlive_id), intervalCallback_eq.
Qed.

(** *** Start-up (lines 103-118) *)

Lemma compileTypesHook_extends (base : list Event) (st : State) :
  extends base st -> extends base (exec (compileTypesHook I this) st).
Proof.
  intros [new Hnew]. rewrite compileTypesHook_eq.
  eexists (_ :: _ :: new). cbn. now rewrite Hnew.
Qed.

Lemma applyAfterDownload_extends (base : list Event) (st : State) :
  extends base st -> extends base (exec (applyAfterDownload I this) st).
Proof.
  intros [new Hnew]. rewrite applyAfterDownload_eq.
  destruct (_ && _); [|now exists new].
  destruct (shouldSyncContinuously this).
  - exists (Tapped PLUGIN_NAME :: new). cbn. now rewrite Hnew.
  - apply compileTypesHook_extends. eexists (_ :: new). cbn. now rewrite Hnew.
Qed.

Lemma extends_run (base : list Event) (sigs : list Signal) (st : State) :
  extends base st -> extends base (fold_left (step I this) sigs st).
Proof.
  pose proof (compileTypesHook_extends base) as Hhook.
  apply (steps_invariant (extends base)). apply (step_cases (extends base)).
  - intros st' n [new Hnew]. exists (DownloadSettled n :: new). cbn. now rewrite Hnew.
  - apply applyAfterDownload_extends.
  - intros st' [new Hnew].
    rewrite afterEmitCallback_eq, compileTypesContinuouslyHook_eq.
    apply Hhook. destruct (remotesAndNotDisabledByOption this).
    + rewrite rearm_eq. eexists (_ :: _ :: _ :: new). cbn. now rewrite Hnew.
    + eexists (_ :: new). cbn. now rewrite Hnew.
  - intros st' [new Hnew]. rewrite intervalCallback_eq.
    eexists (_ :: _ :: new). cbn. now rewrite Hnew.
Qed.

(** The state in which the awaited start-up download has just settled. *)
Lemma startup_passing_gates :
  passesGates I this = true ->
  startup I this
  = exec (applyAfterDownload I this)
      (if remotesAndNotDisabledByOption this
       then {| trace :=
                 [DownloadSettled 0;
                  DownloadStarted 0 (remotes this) (remoteManifestUrls I this);
                  Logged log [Str "Downloading types on startup"]];
               awaiting := None;
               inflight := [];
               nextDownload := 1;
               taps := [];
               intervals := [];
               nextIntervalId := 0;
               recompileIntervalId := None |}
       else init).
Proof.
  intros Hgates. unfold startup, boot, run.
  rewrite (started_passing_gates Hgates).
  destruct (remotesAndNotDisabledByOption this).
  - reflexivity.
  - assert (Hidle : awaiting (exec (applyAfterDownload I this) init) = None).
    { rewrite applyAfterDownload_eq. destruct (_ && _); [|reflexivity].
      destruct (shouldSyncContinuously this); [reflexivity|].
      now rewrite compileTypesHook_eq. }
    now rewrite Hidle.
Qed.

(** When the explicit option is set, or the environment does not carry the
    marker, [isDownloadDisabled] agrees with the guard of lines 86 and 103. *)
Lemma guard_is_isDownloadDisabled :
  JS.chain (options this) Options.disableDownladingRemoteTypes <> None
  \/ JS.strict_eq_string (DEPLOYMENT_ENV this)
       (CLOUDBEDS_DEPLOYMENT_ENV_WITH_DISABLED_REMOTE_TYPES_DOWNLOAD I) = false ->
  remotesAndNotDisabledByOption this
  = JS.truthy_object (remotes this) && negb (isDownloadDisabled I this).
Proof.
  unfold remotesAndNotDisabledByOption, isDownloadDisabled.
  destruct (JS.chain (options this) Options.disableDownladingRemoteTypes)
    as [[|]|]; cbn; intros [H|H]; try reflexivity; try congruence.
  now rewrite H.
Qed.

Lemma downloads_startup :
  passesGates I this = true ->
  downloads (startup I this)
  = if remotesAndNotDisabledByOption this then 1 else 0.
Proof.
  intros Hgates. rewrite (startup_passing_gates Hgates), applyAfterDownload_eq.
  unfold downloads, count.
  destruct (remotesAndNotDisabledByOption this);
    (destruct (_ && _); [|reflexivity]);
    (destruct (shouldSyncContinuously this); [reflexivity|]);
    rewrite compileTypesHook_eq; cbn; now destruct (isSuccess _).
Qed.

(** In continuous mode start-up taps [afterEmit] and compiles nothing. *)
Lemma continuous_startup :
  passesGates I this = true ->
  JS.truthy_object (exposes this) && negb (isCompilationDisabled this) = true ->
  shouldSyncContinuously this = true ->
  taps (startup I this) = [PLUGIN_NAME]
  /\ awaiting (startup I this) = None
  /\ compiles (startup I this) = 0
  /\ intervals (startup I this) = []
  /\ count is_interval_set (startup I this) = 0
  /\ count is_tap (startup I this) = 1.
Proof.
  intros Hgates Hcompile Hmode.
  rewrite (startup_passing_gates Hgates), applyAfterDownload_eq, Hcompile, Hmode.
  destruct (remotesAndNotDisabledByOption this); repeat split.
Qed.

(** Once tapped, the callback stays tapped, and every build-completion
    signal compiles exactly once. *)
Lemma tapped_forever (sigs : list Signal) (st : State) :
  taps st = [PLUGIN_NAME] -> awaiting st = None ->
  taps (fold_left (step I this) sigs st) = [PLUGIN_NAME]
  /\ awaiting (fold_left (step I this) sigs st) = None.
Proof.
  intros Ht Ha.
  apply (steps_invariant (fun s => taps s = [PLUGIN_NAME] /\ awaiting s = None));
    [|now split].
  clear. intros st s [Ht Ha]. apply step_cases_in_context.
  - now split.
  - intros n _ Hn. congruence.
  - intros n _ _. cbn. rewrite Ha. now split.
  - rewrite Ht, for_each_singleton.
    rewrite afterEmitCallback_eq, compileTypesContinuouslyHook_eq, compileTypesHook_eq.
    destruct (remotesAndNotDisabledByOption this); [rewrite rearm_eq|]; now split.
  - intros id _. rewrite intervalCallback_eq. now split.
Qed.

Lemma afterEmit_compiles_once (st : State) :
  taps st = [PLUGIN_NAME] ->
  compiles (step I this st afterEmit) = S (compiles st).
Proof.
  intros Ht. unfold step, deliver.
  change (compiles (exec (for_each (taps st) (fun _ : string => afterEmitCallback I this)) st)
          = S (compiles st)).
  rewrite Ht, for_each_singleton.
  rewrite afterEmitCallback_eq, compileTypesContinuouslyHook_eq, compileTypesHook_eq.
  unfold compiles, count.
  destruct (remotesAndNotDisabledByOption this); [rewrite rearm_eq|];
    cbn; now destruct (isSuccess _).
Qed.

(** In one-shot mode start-up compiles once and leaves nothing behind. *)
Lemma one_shot_startup :
  passesGates I this = true ->
  JS.truthy_object (exposes this) && negb (isCompilationDisabled this) = true ->
  shouldSyncContinuously this = false ->
  quiescent (startup I this) /\ compiles (startup I this) = 1.
Proof.
  intros Hgates Hcompile Hmode.
  rewrite (startup_passing_gates Hgates), applyAfterDownload_eq, Hcompile, Hmode.
  rewrite compileTypesHook_eq. unfold quiescent, compiles, count.
  destruct (remotesAndNotDisabledByOption this); cbn;
    now destruct (isSuccess _).
Qed.

(** Without exposes, or with type compilation disabled, nothing is ever
    compiled or tapped. *)
Lemma never_compiles (sigs : list Signal) :
  JS.truthy_object (exposes this) && negb (isCompilationDisabled this) = false ->
  compiles (run I this sigs) = 0 /\ taps (run I this sigs) = [].
Proof.
  intros Hcompile.
  apply (run_invariant (fun st => compiles st = 0 /\ taps st = [])).
  - destruct (passesGates I this) eqn:Hgates.
    + rewrite (started_passing_gates Hgates).
      destruct (remotesAndNotDisabledByOption this); [now split|].
      rewrite applyAfterDownload_eq, Hcompile. now split.
    + now destruct (started_failing_gates Hgates) as ((_ & Ht & _) & Hc & _).
  - intros st s [Hc Ht]. apply step_cases_in_context.
    + now split.
    + intros n _ _. rewrite applyAfterDownload_eq, Hcompile. now split.
    + intros n _ _. now split.
    + rewrite Ht. now split.
    + intros id _. rewrite intervalCallback_eq. now split.
Qed.

(** C3 (as the code has it). When the gates are passed, exposes is present,
    type compilation is not disabled and continuous mode applies, start-up
    taps the build-completion hook exactly once, compiles nothing and sets
    no timer, whether or not the download runs; afterwards the callback
    stays tapped, and every build-completion signal compiles exactly once. *)
Theorem continuous_mode_taps_afterEmit_without_compiling :
  passesGates I this = true ->
  JS.truthy_object (exposes this) = true ->
  isCompilationDisabled this = false ->
  shouldSyncContinuously this = true ->
  taps (startup I this) = [PLUGIN_NAME]
  /\ count is_tap (startup I this) = 1
  /\ compiles (startup I this) = 0
  /\ intervals (startup I this) = []
  /\ count is_interval_set (startup I this) = 0
  /\ (forall sigs,
        let st := run I this (boot I this ++ sigs) in
        taps st = [PLUGIN_NAME]
        /\ compiles (step I this st afterEmit) = S (compiles st)).
Proof.
  intros Hgates Hexposes Hcompile Hmode.
  assert (Hsub : JS.truthy_object (exposes this)
                 && negb (isCompilationDisabled this) = true).
  { now rewrite Hexposes, Hcompile. }
  destruct (continuous_startup Hgates Hsub Hmode)
    as (Ht & Ha & Hc & Hi & Hns & Hnt).
  repeat split; try assumption.
  - rewrite run_app. now apply tapped_forever.
  - apply afterEmit_compiles_once. rewrite run_app. now apply tapped_forever.
Qed.

(** C5 (as the code has it). When the gates are passed and the explicit
    download option is set or the environment does not carry the marker:
    the start-up download runs exactly when remotes is present and download
    is not disabled; when exposes is present and type compilation is not
    disabled, a one-shot build compiles exactly once and a continuous build
    taps the build-completion hook, compiles nothing at start-up and
    compiles once per build-completion signal; otherwise, and in particular
    when exposes is absent, no compile ever occurs. *)
Theorem gates_passed_subflows :
  passesGates I this = true ->
  JS.chain (options this) Options.disableDownladingRemoteTypes <> None
  \/ JS.strict_eq_string (DEPLOYMENT_ENV this)
       (CLOUDBEDS_DEPLOYMENT_ENV_WITH_DISABLED_REMOTE_TYPES_DOWNLOAD I) = false ->
  downloads (startup I this)
  = (if JS.truthy_object (remotes this) && negb (isDownloadDisabled I this)
     then 1 else 0)
  /\ (if JS.truthy_object (exposes this) && negb (isCompilationDisabled this)
      then if shouldSyncContinuously this
           then compiles (startup I this) = 0
                /\ taps (startup I this) = [PLUGIN_NAME]
                /\ forall sigs,
                     compiles (step I this (run I this (boot I this ++ sigs)) afterEmit)
                     = S (compiles (run I this (boot I this ++ sigs)))
           else forall sigs,
                  compiles (run I this (boot I this ++ sigs)) = 1
                  /\ taps (run I this (boot I this ++ sigs)) = []
      else forall sigs,
             compiles (run I this sigs) = 0 /\ taps (run I this sigs) = [])
  /\ (exposes this = None -> forall sigs, compiles (run I this sigs) = 0).
Proof.
  intros Hgates Hexplicit. repeat apply conj.
  - rewrite (downloads_startup Hgates).
    now rewrite (guard_is_isDownloadDisabled Hexplicit).
  - destruct (JS.truthy_object (exposes this) && negb (isCompilationDisabled this))
      eqn:Hsub.
    + destruct (shouldSyncContinuously this) eqn:Hmode.
      * destruct (continuous_startup Hgates Hsub Hmode)
          as (Ht & Ha & Hc & _).
        repeat split; try assumption.
        intros sigs. apply afterEmit_compiles_once.
        rewrite run_app. now apply tapped_forever.
      * intros sigs.
        destruct (one_shot_startup Hgates Hsub Hmode) as [Hq Hc].
        rewrite run_app. fold (startup I this).
        rewrite (quiescent_steps sigs _ Hq). split; [exact Hc|apply Hq].
    + intros sigs. now apply never_compiles.
  - intros Habsent sigs. apply never_compiles. now rewrite Habsent.
Qed.

(** C6. When remotes and exposes are configured and download is enabled,
    every compile of every run has the whole start-up download before it:
    the history up to the compile begins with the start of download 0 and
    its settling. *)
Theorem download_before_compile
        (sigs : list Signal) (before after : list Event) (c : Event) :
  JS.truthy_object (remotes this) = true ->
  JS.truthy_object (exposes this) = true ->
  isDownloadDisabled I this = false ->
  history (run I this sigs) = before ++ c :: after ->
  is_compile c = true ->
  exists rest,
    before = Logged log [Str "Downloading types on startup"]
             :: DownloadStarted 0 (remotes this) (remoteManifestUrls I this)
             :: DownloadSettled 0 :: rest.
Proof.
  intros Hremotes _ Henabled Hsplit Hc.
  assert (Hguard : remotesAndNotDisabledByOption this = true).
  { unfold remotesAndNotDisabledByOption. rewrite Hremotes.
    unfold isDownloadDisabled in Henabled.
    destruct (JS.chain (options this) Options.disableDownladingRemoteTypes)
      as [[|]|]; cbn in *; congruence. }
  assert (Hin : In c (trace (run I this sigs))).
  { apply In_rev. fold (history (run I this sigs)). rewrite Hsplit.
    apply in_elt. }
  destruct (passesGates I this) eqn:Hgates.
  - pose proof (started_passing_gates Hgates) as Hstarted.
    rewrite Hguard in Hstarted.
    set (base := [DownloadSettled 0;
                  DownloadStarted 0 (remotes this) (remoteManifestUrls I this);
                  Logged log [Str "Downloading types on startup"]]).
    assert (Hinv : run I this sigs = started I this
                   \/ extends base (run I this sigs)).
    { apply (run_invariant (fun st => st = started I this \/ extends base st));
        [now left|].
      intros st s [->|Hext].
      - rewrite Hstarted. apply step_cases_in_context.
        + now left.
        + intros n _ Hn. injection Hn as <-. right.
          apply applyAfterDownload_extends. now exists [].
        + intros [|n] Hpending Hn; [now elim Hn|discriminate Hpending].
        + now left.
        + intros id Hlive. discriminate Hlive.
      - right. now apply (extends_run base [s]). }
    destruct Hinv as [Heq|[new Hnew]].
    + rewrite Heq, Hstarted in Hin. cbn in Hin.
      destruct Hin as [<-|[<-|[]]]; discriminate.
    + unfold history in Hsplit. rewrite Hnew, rev_app_distr in Hsplit.
      cbn in Hsplit.
      destruct before as [|b0 before]; cbn in Hsplit;
        injection Hsplit as Hhd Htl; [rewrite <- Hhd in Hc; discriminate Hc|].
      destruct before as [|b1 before]; cbn in Htl;
        injection Htl as Hhd1 Htl; [rewrite <- Hhd1 in Hc; discriminate Hc|].
      destruct before as [|b2 before]; cbn in Htl;
        injection Htl as Hhd2 Htl; [rewrite <- Hhd2 in Hc; discriminate Hc|].
      exists before. now rewrite <- Hhd, <- Hhd1, <- Hhd2.
  - destruct (started_failing_gates Hgates) as (Hq & _ & _ & _ & _ & Hlogs).
    rewrite (quiescent_run sigs Hq) in Hin.
    rewrite Forall_forall in Hlogs. specialize (Hlogs c Hin).
    destruct c; try contradiction. discriminate.
Qed.

(** C1 (what the code does there). With the explicit download option absent
    and the deployment variable equal to the marker, [isDownloadDisabled] is
    true, yet a run that passes the gates with remotes configured starts
    the start-up download; and in a continuous build with exposes the first
    build-completion signal arms a timer whose firing downloads again. *)
Theorem deployment_marker_does_not_stop_download :
  passesGates I this = true ->
  JS.chain (options this) Options.disableDownladingRemoteTypes = None ->
  DEPLOYMENT_ENV this
  = Some (CLOUDBEDS_DEPLOYMENT_ENV_WITH_DISABLED_REMOTE_TYPES_DOWNLOAD I) ->
  JS.truthy_object (remotes this) = true ->
  isDownloadDisabled I this = true
  /\ history (started I this)
     = [Logged log [Str "Downloading types on startup"];
        DownloadStarted 0 (remotes this) (remoteManifestUrls I this)]
  /\ downloads (startup I this) = 1
  /\ (JS.truthy_object (exposes this) = true ->
      shouldSyncContinuously this = true ->
      let st := run I this (boot I this ++ [afterEmit]) in
      length (intervals st) = 1
      /\ forall id ms, In (id, ms) (intervals st) ->
           downloads (step I this st (intervalElapsed id)) = 2).
Proof.
  intros Hgates Habsent Henv Hremotes.
  assert (Hdisabled : isDownloadDisabled I this = true).
  { unfold isDownloadDisabled. rewrite Habsent, Henv. cbn.
    apply String.eqb_refl. }
  assert (Hguard : remotesAndNotDisabledByOption this = true).
  { unfold remotesAndNotDisabledByOption. now rewrite Hremotes, Habsent. }
  assert (Hcompile : isCompilationDisabled this = false).
  { unfold passesGates in Hgates. rewrite Hdisabled in Hgates.
    destruct (isCompilationDisabled this); [|reflexivity].
    cbn in Hgates. now rewrite andb_false_r in Hgates. }
  repeat apply conj.
  - exact Hdisabled.
  - now rewrite (started_passing_gates Hgates), Hguard.
  - now rewrite (downloads_startup Hgates), Hguard.
  - intros Hexposes Hmode st.
    assert (Hsub : JS.truthy_object (exposes this)
                   && negb (isCompilationDisabled this) = true).
    { now rewrite Hexposes, Hcompile. }
    destruct (continuous_startup Hgates Hsub Hmode)
      as (Ht & Ha & Hc & Hi & Hns & Hnt).
    assert (Hst : st = exec (afterEmitCallback I this) (startup I this)).
    { subst st. rewrite run_snoc. fold (startup I this).
      unfold step, deliver.
      change (exec (for_each (taps (startup I this))
                             (fun _ : string => afterEmitCallback I this))
                   (startup I this)
              = exec (afterEmitCallback I this) (startup I this)).
      now rewrite Ht, for_each_singleton. }
    assert (Hd : downloads st = 1).
    { rewrite Hst, afterEmitCallback_eq, compileTypesContinuouslyHook_eq,
        compileTypesHook_eq, Hguard, rearm_eq.
      pose proof (downloads_startup Hgates) as Hone. rewrite Hguard in Hone.
      unfold downloads, count in *. cbn. now destruct (isSuccess _). }
    assert (Hlive : intervals st
                    = [(nextIntervalId (startup I this),
                        (1000 * downloadTypesWhenIdleIntervalInSeconds this)%Z)]).
    { rewrite Hst, afterEmitCallback_eq, compileTypesContinuouslyHook_eq,
        compileTypesHook_eq, Hguard, rearm_eq.
      cbn [push intervals recompileIntervalId].
      destruct (recompileIntervalId (startup I this)); now rewrite Hi. }
    split; [now rewrite Hlive|].
    intros id ms Hin. rewrite Hlive in Hin. destruct Hin as [[= <- <-]|[]].
    rewrite live_timer_fires, intervalCallback_eq.
    + unfold downloads, count in *. cbn. now rewrite Hd.
    + rewrite Hlive. cbn. now rewrite Nat.eqb_refl.
Qed.

(** *** The other two gates (lines 40-54) *)

(** X1. When both features are off, by the options or, for the download, by the
    deployment marker, and no manifest URL is invalid, the plugin logs that
    it is disabled and never does anything else: in every run the history
    is that one log entry, with no download, no compile, no tap and no
    timer, whatever the federation configuration. *)
Theorem both_features_off_disables_plugin (sigs : list Signal) :
  isEveryUrlValid I (JS.values (JS.nullish (remoteManifestUrls I this) [])) = true ->
  isCompilationDisabled this = true ->
  isDownloadDisabled I this = true ->
  history (run I this sigs)
  = [Logged log [Str "Plugin disabled as both type compilation and download features are turned off"]]
  /\ compiles (run I this sigs) = 0
  /\ downloads (run I this sigs) = 0
  /\ taps (run I this sigs) = []
  /\ intervals (run I this sigs) = [].
Proof.
  intros Hurls Hcompile Hdownload.
  assert (Hstart : started I this
                   = push [Logged log [Str "Plugin disabled as both type compilation and download features are turned off"]]
                          init).
  { unfold started, apply. now rewrite Hurls, Hcompile, Hdownload. }
  rewrite quiescent_run; rewrite Hstart; repeat split; reflexivity.
Qed.

(** X2. When no manifest URL is invalid and not both features are off, a
    federation plugin that is missing, has no [_options], or has an absent
    or empty [name] disables the plugin: in every run the history is the
    one log entry about the missing name, and nothing else ever happens. *)
Theorem missing_federation_name_disables_plugin (sigs : list Signal) :
  isEveryUrlValid I (JS.values (JS.nullish (remoteManifestUrls I this) [])) = true ->
  isCompilationDisabled this && isDownloadDisabled I this = false ->
  JS.truthy_string (JS.chain (federationPluginOptions this) Federation.name) = false ->
  history (run I this sigs)
  = [Logged log [Str "Plugin disabled as ModuleFederationPlugin is not configured properly. The `name` option is missing."]]
  /\ compiles (run I this sigs) = 0
  /\ downloads (run I this sigs) = 0
  /\ taps (run I this sigs) = []
  /\ intervals (run I this sigs) = [].
Proof.
  intros Hurls Hboth Hname.
  assert (Hstart : started I this
                   = push [Logged log [Str "Plugin disabled as ModuleFederationPlugin is not configured properly. The `name` option is missing."]]
                          init).
  { unfold started, apply. now rewrite Hurls, Hboth, Hname. }
  rewrite quiescent_run; rewrite Hstart; repeat split; reflexivity.
Qed.

(** X3. Among the plugins of the compiler the first one whose constructor is
    named ModuleFederationPlugin decides: its options give the name, the
    exposes and the remotes, whatever comes after it; with no such plugin
    there are no federation options at all. *)
Theorem first_federation_plugin_decides :
  (forall pre p post,
     Webpack.plugins (compiler this) = pre ++ p :: post ->
     Forall (fun q => Webpack.constructor_name q <> "ModuleFederationPlugin") pre ->
     Webpack.constructor_name p = "ModuleFederationPlugin" ->
     federationPluginOptions this = Webpack._options p
     /\ exposes this = JS.chain (Webpack._options p) Federation.exposes
     /\ remotes this = JS.chain (Webpack._options p) Federation.remotes)
  /\ (Forall (fun q => Webpack.constructor_name q <> "ModuleFederationPlugin")
             (Webpack.plugins (compiler this)) ->
      federationPluginOptions this = None
      /\ exposes this = None /\ remotes this = None).
Proof.
  split.
  - intros pre p post Hplugins Hpre Hp.
    assert (Hfind : federationOptions this = Some p).
    { unfold federationOptions. rewrite Hplugins. clear Hplugins.
      induction Hpre as [|q pre Hq _ IH]; cbn.
      - now rewrite Hp.
      - destruct (String.eqb_spec (Webpack.constructor_name q) "ModuleFederationPlugin");
          [contradiction|exact IH]. }
    unfold exposes, remotes, federationPluginOptions. now rewrite Hfind.
  - intros Hnone.
    assert (Hfind : federationOptions this = None).
    { unfold federationOptions.
      induction Hnone as [|q l Hq _ IH]; cbn; [reflexivity|].
      destruct (String.eqb_spec (Webpack.constructor_name q) "ModuleFederationPlugin");
        [contradiction|exact IH]. }
    unfold exposes, remotes, federationPluginOptions. now rewrite Hfind.
Qed.

(** X4. An explicit [disableDownladingRemoteTypes: false] wins over the
    deployment marker: [isDownloadDisabled] is false whatever the
    environment, so even with type compilation off the plugin is not
    disabled, and with valid URLs, a federation name and remotes it starts
    the start-up download. *)
Theorem explicit_false_overrides_marker :
  JS.chain (options this) Options.disableDownladingRemoteTypes = Some false ->
  isDownloadDisabled I this = false
  /\ (isEveryUrlValid I (JS.values (JS.nullish (remoteManifestUrls I this) [])) = true ->
      JS.truthy_string (JS.chain (federationPluginOptions this) Federation.name) = true ->
      JS.truthy_object (remotes this) = true ->
      history (started I this)
      = [Logged log [Str "Downloading types on startup"];
         DownloadStarted 0 (remotes this) (remoteManifestUrls I this)]).
Proof.
  intros Hoption.
  assert (Henabled : isDownloadDisabled I this = false).
  { unfold isDownloadDisabled. now rewrite Hoption. }
  split; [exact Henabled|].
  intros Hurls Hname Hremotes.
  assert (Hgates : passesGates I this = true).
  { unfold passesGates. rewrite Hurls, Hname, Henabled.
    now rewrite andb_false_r. }
  assert (Hguard : remotesAndNotDisabledByOption this = true).
  { unfold remotesAndNotDisabledByOption. now rewrite Hremotes, Hoption. }
  now rewrite (started_passing_gates Hgates), Hguard.
Qed.

(** *** One step, signal by signal *)

Lemma step_downloadSettled (st : State) (n : nat) :
  step I this st (downloadSettled n)
  = if existsb (Nat.eqb n) (inflight st)
    then if match awaiting st with Some m => (m =? n)%nat | None => false end
         then exec (applyAfterDownload I this) (snd (settle n st))
         else snd (settle n st)
    else st.
Proof.
  unfold step, exec, deliver. destruct (existsb _ _); [|reflexivity].
  unfold bind, settle. cbn [fst snd].
  destruct (awaiting st) as [m|]; [|reflexivity].
  now destruct (m =? n)%nat.
Qed.

Lemma step_afterEmit (st : State) :
  step I this st afterEmit
  = exec (for_each (taps st) (fun _ : string => afterEmitCallback I this)) st.
Proof. reflexivity. Qed.

Lemma step_intervalElapsed (st : State) (id : nat) :
  step I this st (intervalElapsed id)
  = if existsb (fun t => (fst t =? id)%nat) (intervals st)
    then exec (intervalCallback I this) st
    else st.
Proof. unfold step, exec, deliver. now destruct (existsb _ _). Qed.

(** *** What the closures leave alone *)

Lemma compileTypesHook_keeps (st : State) :
  let st' := exec (compileTypesHook I this) st in
  downloads st' = downloads st
  /\ count is_tap st' = count is_tap st
  /\ count is_interval_set st' = count is_interval_set st
  /\ compiles st' = S (compiles st)
  /\ taps st' = taps st /\ intervals st' = intervals st
  /\ inflight st' = inflight st /\ awaiting st' = awaiting st.
Proof.
  cbv zeta. rewrite compileTypesHook_eq. unfold downloads, compiles, count.
  cbn. now destruct (isSuccess _).
Qed.

Lemma applyAfterDownload_keeps (st : State) :
  let st' := exec (applyAfterDownload I this) st in
  downloads st' = downloads st
  /\ count is_interval_set st' = count is_interval_set st
  /\ intervals st' = intervals st
  /\ inflight st' = inflight st /\ awaiting st' = awaiting st.
Proof.
  cbv zeta. rewrite applyAfterDownload_eq.
  destruct (_ && _); [|now repeat split].
  destruct (shouldSyncContinuously this); [now repeat split|].
  destruct (compileTypesHook_keeps
              (push [Logged log [Str "Compile types on startup only"]] st))
    as (Hd & _ & Hs & _ & _ & Hi & Hf & Ha).
  rewrite Hd, Hs, Hi, Hf, Ha. now repeat split.
Qed.

Lemma afterEmitCallback_keeps (st : State) :
  let st' := exec (afterEmitCallback I this) st in
  downloads st' = downloads st
  /\ count is_tap st' = count is_tap st
  /\ compiles st' = S (compiles st)
  /\ taps st' = taps st
  /\ inflight st' = inflight st /\ awaiting st' = awaiting st
  /\ (remotesAndNotDisabledByOption this = false ->
      intervals st' = intervals st
      /\ count is_interval_set st' = count is_interval_set st).
Proof.
  cbv zeta. rewrite afterEmitCallback_eq, compileTypesContinuouslyHook_eq.
  destruct (remotesAndNotDisabledByOption this).
  - destruct (compileTypesHook_keeps
                (exec (rearm this)
                      (push [Logged log [Str "Compiling types on afterEmit event"]] st)))
      as (Hd & Ht & _ & Hc & Hts & _ & Hf & Ha).
    rewrite Hd, Ht, Hc, Hts, Hf, Ha, rearm_eq. repeat split; discriminate.
  - destruct (compileTypesHook_keeps
                (push [Logged log [Str "Compiling types on afterEmit event"]] st))
      as (Hd & Ht & Hs & Hc & Hts & Hi & Hf & Ha).
    rewrite Hd, Ht, Hs, Hc, Hts, Hi, Hf, Ha. now repeat split.
Qed.

(** A state whose trace holds only log entries has none of the effects. *)
Lemma logs_only_count (p : Event -> bool) (st : State) :
  Forall (fun e => match e with Logged _ _ => True | _ => False end) (trace st) ->
  (forall l args, p (Logged l args) = false) ->
  count p st = 0.
Proof.
  intros Hlogs Hp. unfold count.
  induction Hlogs as [|e tr He _ IH]; [reflexivity|].
  destruct e; try contradiction. cbn. now rewrite Hp.
Qed.

Lemma count_zero_absent (p : Event -> bool) (st : State) (e : Event) :
  count p st = 0 -> In e (trace st) -> p e = false.
Proof.
  unfold count. intros Hzero Hin.
  destruct (p e) eqn:Hp; [|reflexivity].
  assert (Hfiltered : In e (filter p (trace st))) by (apply filter_In; now split).
  destruct (filter p (trace st)); [contradiction|discriminate].
Qed.

(** *** Runs without the download guard *)

Lemma never_downloaded_run (sigs : list Signal) :
  remotesAndNotDisabledByOption this = false ->
  never_downloaded (run I this sigs).
Proof.
  intros Hguard.
  assert (Hcont : forall st, never_downloaded st ->
                    never_downloaded (exec (applyAfterDownload I this) st)).
  { intros st (Hd & Hi & Hs & Hf & Ha).
    destruct (applyAfterDownload_keeps st) as (Hd' & Hs' & Hi' & Hf' & Ha').
    unfold never_downloaded. now rewrite Hd', Hs', Hi', Hf', Ha'. }
  apply (run_invariant never_downloaded).
  - destruct (passesGates I this) eqn:Hgates.
    + rewrite (started_passing_gates Hgates), Hguard. apply Hcont.
      now repeat split.
    + destruct (started_failing_gates Hgates)
        as ((Hf & _ & Hi) & _ & Hd & _ & Ha & Hlogs).
      repeat split; try assumption. now apply logs_only_count.
  - intros st s (Hd & Hi & Hs & Hf & Ha). apply step_cases_in_context.
    + now repeat split.
    + intros n Hpending. rewrite Hf in Hpending. discriminate.
    + intros n Hpending. rewrite Hf in Hpending. discriminate.
    + apply (for_each_invariant never_downloaded
                                (fun _ : string => afterEmitCallback I this));
        [|now repeat split].
      clear - Hguard. intros _ st (Hd & Hi & Hs & Hf & Ha).
      destruct (afterEmitCallback_keeps st)
        as (Hd' & _ & _ & _ & Hf' & Ha' & Hkeep).
      destruct (Hkeep Hguard) as [Hi' Hs'].
      unfold never_downloaded. now rewrite Hd', Hi', Hs', Hf', Ha'.
    + intros id Hlive. rewrite Hi in Hlive. discriminate.
Qed.

(** X5. With remotes absent, or with the explicit option
    [disableDownladingRemoteTypes: true], no run ever starts a download,
    at start-up or later, and no run ever sets a timer, however many builds
    complete. *)
Theorem no_remotes_or_option_never_downloads (sigs : list Signal) :
  remotes this = None
  \/ JS.chain (options this) Options.disableDownladingRemoteTypes = Some true ->
  downloads (run I this sigs) = 0
  /\ intervals (run I this sigs) = []
  /\ count is_interval_set (run I this sigs) = 0.
Proof.
  intros Hoff.
  assert (Hguard : remotesAndNotDisabledByOption this = false).
  { unfold remotesAndNotDisabledByOption.
    destruct Hoff as [-> | ->]; [reflexivity|apply andb_false_r]. }
  now destruct (never_downloaded_run sigs Hguard) as (Hd & Hi & Hs & _).
Qed.

(** *** The tap *)

Lemma tapped_at_most_once_run (sigs : list Signal) :
  tapped_at_most_once (run I this sigs).
Proof.
  assert (Hcont : forall st, taps st = [] -> count is_tap st = 0 ->
                    awaiting st = None ->
                    tapped_at_most_once (exec (applyAfterDownload I this) st)).
  { intros st Ht Hn Ha. rewrite applyAfterDownload_eq.
    destruct (_ && _); [|now left].
    destruct (shouldSyncContinuously this).
    - right. unfold count in *. cbn. now rewrite Ht, Hn, Ha.
    - left.
      destruct (compileTypesHook_keeps
                  (push [Logged log [Str "Compile types on startup only"]] st))
        as (_ & Hn' & _ & _ & Ht' & _).
      now rewrite Hn', Ht'. }
  apply (run_invariant tapped_at_most_once).
  - destruct (passesGates I this) eqn:Hgates.
    + rewrite (started_passing_gates Hgates).
      destruct (remotesAndNotDisabledByOption this); [now left|now apply Hcont].
    + destruct (started_failing_gates Hgates)
        as ((_ & Ht & _) & _ & _ & _ & _ & Hlogs).
      left. split; [exact Ht|]. now apply logs_only_count.
  - intros st s Hst. apply step_cases_in_context.
    + exact Hst.
    + intros n _ Hn. destruct Hst as [[Ht Hc]|(_ & _ & Ha)]; [|congruence].
      apply Hcont; [exact Ht|exact Hc|].
      unfold settle. cbn. now rewrite Hn, Nat.eqb_refl.
    + intros n _ _. destruct Hst as [[Ht Hc]|(Ht & Hc & Ha)].
      * now left.
      * right. unfold settle. cbn. now rewrite Ha.
    + apply (for_each_invariant tapped_at_most_once
                                (fun _ : string => afterEmitCallback I this));
        [|exact Hst].
      clear. intros _ st Hst.
      destruct (afterEmitCallback_keeps st) as (_ & Hn & _ & Ht & _ & Ha & _).
      unfold tapped_at_most_once. now rewrite Hn, Ht, Ha.
    + intros id _. rewrite intervalCallback_eq. exact Hst.
Qed.

(** X6. In every run the build-completion hook is tapped at most once; the live
    taps are exactly the [Tapped] events of the trace; and once the hook is
    tapped [apply] is no longer parked on a download. *)
Theorem afterEmit_tapped_at_most_once (sigs : list Signal) :
  count is_tap (run I this sigs) <= 1
  /\ length (taps (run I this sigs)) = count is_tap (run I this sigs)
  /\ (taps (run I this sigs) <> [] ->
      taps (run I this sigs) = [PLUGIN_NAME]
      /\ awaiting (run I this sigs) = None).
Proof.
  destruct (tapped_at_most_once_run sigs) as [[Ht Hn]|(Ht & Hn & Ha)];
    rewrite Ht, Hn; repeat split; auto; try contradiction.
Qed.

(** *** While [apply] is parked (line 105) *)

(** X7. When the gates are passed and the start-up download is started, every
    signal other than the fulfilment of that download leaves the plugin as
    [apply] left it: a build that completes before the download has been
    fulfilled is not compiled, and nothing is tapped or timed yet. *)
Theorem parked_apply_ignores_signals (sigs : list Signal) :
  passesGates I this = true ->
  remotesAndNotDisabledByOption this = true ->
  forallb (fun s => negb (fulfils_startup s)) sigs = true ->
  run I this sigs = started I this
  /\ history (run I this sigs)
     = [Logged log [Str "Downloading types on startup"];
        DownloadStarted 0 (remotes this) (remoteManifestUrls I this)]
  /\ compiles (run I this sigs) = 0
  /\ taps (run I this sigs) = []
  /\ awaiting (run I this sigs) = Some 0.
Proof.
  intros Hgates Hguard Hsigs.
  pose proof (started_passing_gates Hgates) as Hstarted.
  rewrite Hguard in Hstarted.
  assert (Hparked : run I this sigs = started I this).
  { unfold run. induction sigs as [|s sigs IH]; [reflexivity|].
    cbn [forallb] in Hsigs. apply andb_prop in Hsigs as [Hs Hsigs].
    cbn [fold_left].
    assert (Hstep : step I this (started I this) s = started I this).
    { rewrite Hstarted. destruct s as [[|n]| |id].
      - discriminate Hs.
      - now rewrite step_downloadSettled.
      - now rewrite step_afterEmit.
      - now rewrite step_intervalElapsed. }
    rewrite Hstep. now apply IH. }
  rewrite Hparked, Hstarted. now repeat split.
Qed.

(** *** Without a build (lines 84-101) *)

Lemma idle_free_started : idle_free (started I this).
Proof.
  destruct (passesGates I this) eqn:Hgates.
  - rewrite (started_passing_gates Hgates).
    destruct (remotesAndNotDisabledByOption this).
    + unfold idle_free, downloads, count. cbn. auto.
    + destruct (applyAfterDownload_keeps init) as (Hd & Hs & Hi & _).
      unfold idle_free. rewrite Hd, Hs, Hi.
      unfold downloads, count. cbn. auto.
  - destruct (started_failing_gates Hgates)
      as ((_ & _ & Hi) & _ & Hd & _ & _ & Hlogs).
    unfold idle_free. rewrite Hi, Hd.
    repeat split; auto. now apply logs_only_count.
Qed.

(** X8. The timer is only ever armed by a completed build: in a run without a
    build-completion signal no timer is set, so at most the start-up
    download is started, however long the host waits. *)
Theorem no_build_no_idle_download (sigs : list Signal) :
  forallb (fun s => negb (is_afterEmit s)) sigs = true ->
  intervals (run I this sigs) = []
  /\ count is_interval_set (run I this sigs) = 0
  /\ downloads (run I this sigs) <= 1.
Proof.
  intros Hsigs. unfold run.
  pose proof idle_free_started as Hstart.
  revert Hsigs Hstart. generalize (started I this).
  induction sigs as [|s sigs IH]; intros st Hsigs Hst; [exact Hst|].
  cbn [forallb] in Hsigs. apply andb_prop in Hsigs as [Hs Hsigs].
  cbn [fold_left]. apply IH; [exact Hsigs|].
  destruct Hst as (Hi & Hn & Hd). destruct s as [n| |id].
  - rewrite step_downloadSettled.
    destruct (existsb _ _); [|now repeat split].
    assert (Hsettled : idle_free (snd (settle n st))) by now repeat split.
    destruct (match awaiting st with Some m => (m =? n)%nat | None => false end);
      [|exact Hsettled].
    destruct (applyAfterDownload_keeps (snd (settle n st))) as (Hd' & Hs' & Hi' & _).
    unfold idle_free. now rewrite Hd', Hs', Hi'.
  - discriminate Hs.
  - rewrite step_intervalElapsed, Hi. now repeat split.
Qed.

(** *** Non-development builds (line 79) *)

(** X9. In any build mode other than 'development', also with the mode not
    set, the plugin is one-shot whatever the interval option says: no run
    ever taps the build-completion hook or sets a timer, and at most one
    compile runs. *)
Theorem non_development_mode_is_one_shot (sigs : list Signal) :
  Webpack.mode (compiler this) <> Some "development" ->
  taps (run I this sigs) = []
  /\ count is_tap (run I this sigs) = 0
  /\ intervals (run I this sigs) = []
  /\ count is_interval_set (run I this sigs) = 0
  /\ compiles (run I this sigs) <= 1.
Proof.
  intros Hmode.
  assert (Hone : shouldSyncContinuously this = false).
  { unfold shouldSyncContinuously.
    destruct (Webpack.mode (compiler this)) as [m|]; [|reflexivity].
    cbn. destruct (String.eqb_spec m "development"); [|reflexivity].
    subst m. now elim Hmode. }
  destruct (one_shot_run sigs Hone) as (Ht & Hi & Hnt & Hns & Hc).
  repeat split; try assumption.
  destruct Hc as [[_ Hle]|Hzero]; [assumption|]. rewrite Hzero. lia.
Qed.

(** *** How many downloads and compiles a run can have *)






(** *** Compile outcomes along a run (lines 62-69) *)

Lemma outcomes_later (later : option Event) (tr : list Event) :
  outcomes None tr -> outcomes later tr.
Proof.
  destruct tr as [|e tl]; [auto|]. cbn. intros [He Htl]. split; [|exact Htl].
  destruct e; auto; contradiction.
Qed.

Lemma outcomes_push (e : Event) (st : State) :
  is_compile e = false -> is_rewrite e = false ->
  outcomes None (trace st) -> outcomes None (trace (push [e] st)).
Proof.
  intros Hc Hr Hst. cbn. split.
  - destruct e; try discriminate; exact Logic.I.
  - now apply outcomes_later.
Qed.

Lemma outcomes_compileTypesHook (st : State) :
  outcomes None (trace st) ->
  outcomes None (trace (exec (compileTypesHook I this) st)).
Proof.
  intros Hst. rewrite compileTypesHook_eq.
  destruct (isSuccess _); cbn; repeat split; now apply outcomes_later.
Qed.

Lemma outcomes_run (sigs : list Signal) :
  outcomes None (trace (run I this sigs)).
Proof.
  assert (Hcont : forall st, outcomes None (trace st) ->
                    outcomes None (trace (exec (applyAfterDownload I this) st))).
  { intros st Hst. rewrite applyAfterDownload_eq.
    destruct (_ && _); [|exact Hst].
    destruct (shouldSyncContinuously this).
    - now apply (outcomes_push (Tapped PLUGIN_NAME)).
    - apply outcomes_compileTypesHook. now apply outcomes_push. }
  apply (run_invariant (fun st => outcomes None (trace st))).
  - destruct (passesGates I this) eqn:Hgates.
    + rewrite (started_passing_gates Hgates).
      destruct (remotesAndNotDisabledByOption this).
      * cbn. auto.
      * apply Hcont. exact Logic.I.
    + destruct (started_failing_gates Hgates) as (_ & _ & _ & _ & _ & Hlogs).
      induction Hlogs as [|e tr He _ IH]; [exact Logic.I|].
      destruct e; try contradiction. cbn. split; [exact Logic.I|].
      now apply outcomes_later.
  - apply (step_cases (fun st => outcomes None (trace st))).
    + intros st n Hst. now apply (outcomes_push (DownloadSettled n)).
    + exact Hcont.
    + intros st Hst. rewrite afterEmitCallback_eq, compileTypesContinuouslyHook_eq.
      apply outcomes_compileTypesHook.
      pose proof (outcomes_push
                    (Logged log [Str "Compiling types on afterEmit event"]) st
                    eq_refl eq_refl Hst) as Hlogged.
      destruct (remotesAndNotDisabledByOption this); [|exact Hlogged].
      rewrite rearm_eq. cbn. repeat split. now apply outcomes_later.
    + intros st Hst. rewrite intervalCallback_eq. cbn. repeat split.
      now apply outcomes_later.
Qed.


(** The check of [outcomes] at any position of a trace: an event is checked
    against the event recorded just after it. *)
Lemma outcomes_at (later : option Event) (l1 l2 : list Event) (e : Event) :
  outcomes later (l1 ++ e :: l2) ->
  outcomes (match rev l1 with a :: _ => Some a | [] => later end) (e :: l2).
Proof.
  revert later. induction l1 as [|a l1 IH]; intros later H; [exact H|].
  cbn [app] in H. destruct H as [_ H]. specialize (IH (Some a) H).
  cbn [rev]. destruct (rev l1); exact IH.
Qed.

(** X11. In every run every compile is directly followed by its outcome, the
    rewrite of the same output file when the compiler reported success and
    the warning when it did not; and every rewrite comes directly after a
    successful compile of the file it rewrites. *)
Theorem every_compile_has_its_outcome (sigs : list Signal) :
  (forall before x f b after,
     history (run I this sigs) = before ++ Compiled x f b :: after ->
     exists e rest,
       after = e :: rest
       /\ if b then exists td, e = Rewritten f td
          else exists args, e = Logged warn args)
  /\ (forall before f td after,
        history (run I this sigs) = before ++ Rewritten f td :: after ->
        exists earlier x, before = earlier ++ [Compiled x f true]).
Proof.
  pose proof (outcomes_run sigs) as Hrun.
  assert (Hsplit : forall before e after,
            history (run I this sigs) = before ++ e :: after ->
            outcomes (match after with a :: _ => Some a | [] => None end)
                     (e :: rev before)).
  { intros before e after Hh.
    assert (Htrace : trace (run I this sigs) = rev after ++ e :: rev before).
    { rewrite <- (rev_involutive (trace (run I this sigs))).
      fold (history (run I this sigs)). rewrite Hh, rev_app_distr.
      cbn [rev]. now rewrite <- app_assoc. }
    rewrite Htrace in Hrun. apply outcomes_at in Hrun.
    now rewrite rev_involutive in Hrun. }
  split.
  - intros before x f b after Hh. specialize (Hsplit _ _ _ Hh).
    destruct Hsplit as [Hcheck _]. destruct after as [|e rest]; [contradiction|].
    exists e, rest. split; [reflexivity|].
    destruct e as [[|] args| | | |f' td| | |]; try contradiction.
    + rewrite Hcheck. now exists args.
    + destruct Hcheck as [-> ->]. now exists td.
  - intros before f td after Hh. specialize (Hsplit _ _ _ Hh).
    destruct Hsplit as [Hcheck Hrest].
    destruct (rev before) as [|c r] eqn:Hrev; [contradiction|].
    destruct c as [| | |x f' [|]| | | |]; try contradiction.
    destruct Hrest as [[_ Hf] _]. subst f'.
    exists (rev r), x. rewrite <- (rev_involutive before), Hrev. reflexivity.
Qed.

(** *** What each effect requires of the configuration *)

Lemma no_tap_no_timer_run (sigs : list Signal) :
  JS.truthy_object (exposes this) && negb (isCompilationDisabled this) = false ->
  count is_tap (run I this sigs) = 0
  /\ count is_interval_set (run I this sigs) = 0
  /\ compiles (run I this sigs) = 0.
Proof.
  intros Hcompile.
  destruct (never_compiles sigs Hcompile) as [Hc Ht].
  repeat split; [| |exact Hc].
  - destruct (tapped_at_most_once_run sigs) as [[_ Hn]|(Ht' & _)];
      [exact Hn|congruence].
  - apply (run_invariant
             (fun st => taps st = [] /\ intervals st = []
                        /\ count is_interval_set st = 0)).
    + destruct (passesGates I this) eqn:Hgates.
      * rewrite (started_passing_gates Hgates).
        destruct (remotesAndNotDisabledByOption this); [now repeat split|].
        rewrite applyAfterDownload_eq, Hcompile. now repeat split.
      * destruct (started_failing_gates Hgates)
          as ((_ & Hts & Hi) & _ & _ & _ & _ & Hlogs).
        repeat split; try assumption. now apply logs_only_count.
    + intros st s (Hts & Hi & Hs). apply step_cases_in_context.
      * now repeat split.
      * intros n _ _. rewrite applyAfterDownload_eq, Hcompile. now repeat split.
      * intros n _ _. now repeat split.
      * rewrite Hts. now repeat split.
      * intros id Hlive. rewrite Hi in Hlive. discriminate.
Qed.

Lemma failing_gates_only_log (sigs : list Signal) (e : Event) :
  passesGates I this = false ->
  In e (trace (run I this sigs)) ->
  match e with Logged _ _ => True | _ => False end.
Proof.
  intros Hgates Hin.
  destruct (started_failing_gates Hgates) as (Hq & _ & _ & _ & _ & Hlogs).
  rewrite (quiescent_run sigs Hq) in Hin.
  rewrite Forall_forall in Hlogs. now apply Hlogs.
Qed.


Lemma compile_needs_exposes (sigs : list Signal) (e : Event) :
  In e (trace (run I this sigs)) -> is_compile e = true ->
  passesGates I this = true
  /\ JS.truthy_object (exposes this) = true
  /\ isCompilationDisabled this = false.
Proof.
  intros Hin He. split.
  - destruct (passesGates I this) eqn:Hgates; [reflexivity|].
    pose proof (failing_gates_only_log sigs e Hgates Hin).
    destruct e; try contradiction; discriminate.
  - destruct (JS.truthy_object (exposes this) && negb (isCompilationDisabled this))
      eqn:Hcompile.
    + apply andb_prop in Hcompile as [Hx Hc]. split; [exact Hx|].
      now apply negb_true_iff.
    + destruct (no_tap_no_timer_run sigs Hcompile) as (_ & _ & Hc).
      rewrite (count_zero_absent is_compile _ e Hc Hin) in He. discriminate.
Qed.

(** X12. Every effect of a run presupposes its configuration: a download only
    happens when the gates are passed, remotes is present and the download
    option is not set; a compile only when the gates are passed, exposes is
    present and type compilation is not disabled; the build-completion hook
    is only tapped when, in addition, the build is continuous; and a timer
    is only set when all of these hold together. *)
Theorem effects_require_configuration (sigs : list Signal) (e : Event) :
  In e (history (run I this sigs)) ->
  match e with
  | DownloadStarted _ _ _ =>
      passesGates I this = true
      /\ JS.truthy_object (remotes this) = true
      /\ JS.truthy_bool
           (JS.chain (options this) Options.disableDownladingRemoteTypes) = false
  | Compiled _ _ _ =>
      passesGates I this = true
      /\ JS.truthy_object (exposes this) = true
      /\ isCompilationDisabled this = false
  | Tapped _ =>
      passesGates I this = true
      /\ JS.truthy_object (exposes this) = true
      /\ isCompilationDisabled this = false
      /\ shouldSyncContinuously this = true
  | IntervalSet _ _ =>
      passesGates I this = true
      /\ JS.truthy_object (exposes this) = true
      /\ isCompilationDisabled this = false
      /\ shouldSyncContinuously this = true
      /\ JS.truthy_object (remotes this) = true
      /\ JS.truthy_bool
           (JS.chain (options this) Options.disableDownladingRemoteTypes) = false
  | _ => True
  end.
Proof.
  intros Hin. unfold history in Hin. apply In_rev in Hin.
  assert (Hgates : match e with Logged _ _ => True | _ => passesGates I this = true end).
  { destruct (passesGates I this) eqn:Hg; [now destruct e|].
    pose proof (failing_gates_only_log sigs e Hg Hin). now destruct e. }
  assert (Hactive : is_tap e = true \/ is_interval_set e = true ->
                    JS.truthy_object (exposes this) = true
                    /\ isCompilationDisabled this = false
                    /\ shouldSyncContinuously this = true).
  { intros He.
    destruct (JS.truthy_object (exposes this) && negb (isCompilationDisabled this))
      eqn:Hcompile.
    - apply andb_prop in Hcompile as [Hx Hc]. apply negb_true_iff in Hc.
      repeat split; try assumption.
      destruct (shouldSyncContinuously this) eqn:Hmode; [reflexivity|].
      destruct (one_shot_run sigs Hmode) as (_ & _ & Hnt & Hns & _).
      pose proof (count_zero_absent is_tap _ e Hnt Hin).
      pose proof (count_zero_absent is_interval_set _ e Hns Hin).
      destruct He; congruence.
    - destruct (no_tap_no_timer_run sigs Hcompile) as (Hnt & Hns & _).
      pose proof (count_zero_absent is_tap _ e Hnt Hin).
      pose proof (count_zero_absent is_interval_set _ e Hns Hin).
      destruct He; congruence. }
  assert (Hguard : is_download e = true \/ is_interval_set e = true ->
                   JS.truthy_object (remotes this) = true
                   /\ JS.truthy_bool
                        (JS.chain (options this) Options.disableDownladingRemoteTypes)
                      = false).
  { intros He.
    destruct (remotesAndNotDisabledByOption this) eqn:Hg.
    - unfold remotesAndNotDisabledByOption in Hg.
      apply andb_prop in Hg as [Hr Ho]. now apply negb_true_iff in Ho.
    - destruct (never_downloaded_run sigs Hg) as (Hd & _ & Hns & _).
      pose proof (count_zero_absent is_download _ e Hd Hin).
      pose proof (count_zero_absent is_interval_set _ e Hns Hin).
      destruct He; congruence. }
  destruct e; try exact Logic.I.
  - split; [exact Hgates|]. apply Hguard. now left.
  - now apply (compile_needs_exposes sigs _ Hin).
  - split; [exact Hgates|]. apply Hactive. now left.
  - split; [exact Hgates|].
    destruct Hactive as (Hx & Hc & Hm); [now right|].
    destruct Hguard as (Hr & Ho); [now right|]. now repeat split.
Qed.



(** *** Replaced timers *)

(** X14. Only the timer recorded in [recompileIntervalId] can fire: in every
    reachable state the elapsing of any other timer, in particular of one
    that a later build replaced, changes nothing. *)
Theorem replaced_timer_never_fires (sigs : list Signal) (id : nat) :
  recompileIntervalId (run I this sigs) <> Some id ->
  step I this (run I this sigs) (intervalElapsed id) = run I this sigs.
Proof.
  intros Hother. rewrite step_intervalElapsed.
  destruct (single_timer_run sigs) as (_ & Hlive & _).
  destruct (recompileIntervalId (run I this sigs)) as [current|].
  - destruct Hlive as [ms ->]. cbn.
    destruct (Nat.eqb_spec current id) as [->|_]; [now elim Hother|reflexivity].
  - now rewrite Hlive.
Qed.

End Properties.

(** ** The properties on the concrete host *)

(** A build that only consumes remotes downloads once and never compiles. *)
Example remotes_only_downloads_once :
  let this := {| options := None;
                 compiler := Demo.host "production" None (Some Demo.theRemotes);
                 DEPLOYMENT_ENV := None |} in
  history (run (Demo.imports true) this [downloadSettled 0; afterEmit])
  = [Logged log [Str "Downloading types on startup"];
     DownloadStarted 0 (Some Demo.theRemotes) None;
     DownloadSettled 0].
Proof. reflexivity. Qed.

(** A one-shot build that only exposes modules compiles once and never sets
    a timer. *)
Example exposes_only_compiles_once :
  let this := {| options := None;
                 compiler := Demo.host "production" (Some Demo.theExposes) None;
                 DEPLOYMENT_ENV := None |} in
  history (run (Demo.imports true) this [afterEmit; intervalElapsed 0])
  = [Logged log [Str "Compile types on startup only"];
     Compiled (Some Demo.theExposes) "/app/build/@types/index.d.ts" true;
     Rewritten "/app/build/@types/index.d.ts" "declare module"].
Proof. reflexivity. Qed.

(** A development build: the download, the tap, then per build a re-armed
    timer and a compile; the timer only downloads. *)
Example development_session :
  history (run (Demo.imports true) Demo.development
               [downloadSettled 0; afterEmit; afterEmit; intervalElapsed 1])
  = [Logged log [Str "Downloading types on startup"];
     DownloadStarted 0 (Some Demo.theRemotes) None;
     DownloadSettled 0;
     Tapped "ModuleFederationTypesPlugin";
     Logged log [Str "Compiling types on afterEmit event"];
     IntervalCleared None;
     IntervalSet 0 60000;
     Compiled (Some Demo.theExposes) "/app/build/@types/index.d.ts" true;
     Rewritten "/app/build/@types/index.d.ts" "declare module";
     Logged log [Str "Compiling types on afterEmit event"];
     IntervalCleared (Some 0);
     IntervalSet 1 60000;
     Compiled (Some Demo.theExposes) "/app/build/@types/index.d.ts" true;
     Rewritten "/app/build/@types/index.d.ts" "declare module";
     Logged log [Now; Str "Downloading types every"; Num 60; Str "seconds"];
     DownloadStarted 1 (Some Demo.theRemotes) None].
Proof. reflexivity. Qed.

(** C4 at a run whose only manifest URL is "not-a-url". *)
Lemma invalid_manifest_url_disables_plugin_witness :
  In "not-a-url"
     (JS.values
        (JS.nullish
           (remoteManifestUrls (Demo.importsWithManifest "not-a-url") Demo.development)
           []))
  /\ isValidUrl (Demo.importsWithManifest "not-a-url") "not-a-url" = false
  /\ history (run (Demo.importsWithManifest "not-a-url") Demo.development
                  [downloadSettled 0; afterEmit; intervalElapsed 0])
     = [Logged warn [Str "One or more remote manifest URLs are invalid:";
                     Obj (Some [("app2", "not-a-url")])];
        Logged log [Str "Plugin disabled"]].
Proof.
  assert (Hin : In "not-a-url"
                   (JS.values
                      (JS.nullish
                         (remoteManifestUrls (Demo.importsWithManifest "not-a-url")
                                             Demo.development)
                         []))) by (left; reflexivity).
  split; [exact Hin|]. split; [reflexivity|].
  exact (proj1 (invalid_manifest_url_disables_plugin
                  (Demo.importsWithManifest "not-a-url") Demo.development
                  "not-a-url" [downloadSettled 0; afterEmit; intervalElapsed 0]
                  Hin eq_refl)).
Defined.

(** C8 at a one-shot build whose compiler fails. *)
Lemma compile_failure_warns_and_skips_rewrite_witness :
  let st := run (Demo.imports false) Demo.production [] in
  isSuccess (compileTypes (Demo.imports false) (trace st)
               (exposes Demo.production)
               (outFile (Demo.imports false) Demo.production)) = false
  /\ since st (exec (compileTypesHook (Demo.imports false) Demo.production) st)
     = [Compiled (Some Demo.theExposes) "/app/build/@types/index.d.ts" false;
        Logged warn [Str "Failed to compile types for exposed modules.";
                     Str "Use --log-level to see more"]].
Proof.
  intros st. split; [reflexivity|].
  exact (proj1 (compile_failure_warns_and_skips_rewrite
                  (Demo.imports false) Demo.production st) eq_refl).
Defined.

(** C10 at a build with both a dev-server static directory and an output
    path: the static directory wins. *)
Lemma emitted_types_path_precedence_witness :
  JS.chain (JS.chain (Webpack.devServer (compiler Demo.withDevServer)) Webpack.static)
           Webpack.directory = Some "/app/public"
  /\ "/app/public" <> ""
  /\ outFile (Demo.imports true) Demo.withDevServer = "/app/public/@types/index.d.ts".
Proof.
  split; [reflexivity|]. split; [discriminate|].
  exact (proj1 (emitted_types_path_precedence (Demo.imports true) Demo.withDevServer)
               "/app/public" eq_refl
               (fun H : "/app/public" = "" => eq_ind "/app/public"
                  (fun s => match s with EmptyString => False | String _ _ => True end)
                  Logic.I "" H)).
Defined.

(** C9 at a development build with the interval set to -1. *)
Lemma idle_interval_default_and_sentinel_witness :
  JS.chain (options Demo.sentinel) Options.downloadTypesWhenIdleIntervalInSeconds
  = Some (-1)%Z
  /\ (let st := run (Demo.imports true) Demo.sentinel
                    [downloadSettled 0; afterEmit; intervalElapsed 0; afterEmit] in
      taps st = []
      /\ count is_tap st = 0
      /\ intervals st = []
      /\ count is_interval_set st = 0
      /\ compiles st <= 1).
Proof.
  split; [reflexivity|].
  exact (proj2 (proj2 (proj2 (idle_interval_default_and_sentinel
                                (Demo.imports true) Demo.sentinel)))
               eq_refl
               [downloadSettled 0; afterEmit; intervalElapsed 0; afterEmit]).
Defined.

(** C2 (as the code has it) at the first firing of the timer armed by the
    first build of a development run. *)
Lemma interval_fire_downloads_only_witness :
  let st := run (Demo.imports true) Demo.development [downloadSettled 0; afterEmit] in
  let st' := step (Demo.imports true) Demo.development st (intervalElapsed 0) in
  existsb (fun t => (fst t =? 0)%nat) (intervals st) = true
  /\ since st st'
     = [Logged log [Now; Str "Downloading types every"; Num 60; Str "seconds"];
        DownloadStarted 1 (Some Demo.theRemotes) None]
  /\ downloads st' = S (downloads st)
  /\ compiles st' = compiles st
  /\ taps st' = taps st
  /\ intervals st' = intervals st.
Proof.
  intros st st'. split; [reflexivity|].
  exact (interval_fire_downloads_only (Demo.imports true) Demo.development st 0 eq_refl).
Defined.

(** C2 as the spec words it fails there: the firing starts a download and
    compiles nothing (one compile before, one compile after). *)
Lemma interval_fire_compiles_nothing_in_development :
  let st := run (Demo.imports true) Demo.development [downloadSettled 0; afterEmit] in
  let st' := step (Demo.imports true) Demo.development st (intervalElapsed 0) in
  intervals st = [(0, 60000%Z)]
  /\ since st st'
     = [Logged log [Now; Str "Downloading types every"; Num 60; Str "seconds"];
        DownloadStarted 1 (Some Demo.theRemotes) None]
  /\ compiles st = 1
  /\ compiles st' = 1
  /\ count is_rewrite st' = count is_rewrite st.
Proof. vm_compute. repeat split. Qed.

(** C7 after three builds of a development run: one timer is alive, and its
    firing downloads once. *)
Lemma single_timer_invariant_witness :
  let sigs := [downloadSettled 0; afterEmit; afterEmit] in
  let st := run (Demo.imports true) Demo.development sigs in
  remotesAndNotDisabledByOption Demo.development = true
  /\ taps st <> []
  /\ existsb (fun t => (fst t =? 1)%nat) (intervals st) = true
  /\ length (intervals (step (Demo.imports true) Demo.development st afterEmit)) = 1
  /\ downloads (step (Demo.imports true) Demo.development st (intervalElapsed 1))
     = S (downloads st).
Proof.
  intros sigs st.
  assert (Htaps : taps st <> []) by discriminate.
  split; [reflexivity|]. split; [exact Htaps|]. split; [reflexivity|].
  pose proof (single_timer_invariant (Demo.imports true) Demo.development sigs)
    as (_ & _ & _ & Hrearm & Hfire).
  split; [exact (Hrearm eq_refl Htaps)|exact (Hfire 1 eq_refl)].
Defined.

(** C3 (as the code has it) at a development run. *)
Lemma continuous_mode_taps_afterEmit_without_compiling_witness :
  passesGates (Demo.imports true) Demo.development = true
  /\ JS.truthy_object (exposes Demo.development) = true
  /\ isCompilationDisabled Demo.development = false
  /\ shouldSyncContinuously Demo.development = true
  /\ taps (startup (Demo.imports true) Demo.development) = [PLUGIN_NAME]
  /\ compiles (startup (Demo.imports true) Demo.development) = 0.
Proof.
  do 4 (split; [reflexivity|]).
  pose proof (continuous_mode_taps_afterEmit_without_compiling
                (Demo.imports true) Demo.development
                eq_refl eq_refl eq_refl eq_refl)
    as (Ht & _ & Hc & _).
  split; [exact Ht|exact Hc].
Defined.

(** C3 as the spec words it fails there: continuous mode applies and the
    download runs, and start-up ends with the tap, without a compile. *)
Lemma continuous_startup_compiles_nothing_in_development :
  shouldSyncContinuously Demo.development = true
  /\ downloads (startup (Demo.imports true) Demo.development) = 1
  /\ history (startup (Demo.imports true) Demo.development)
     = [Logged log [Str "Downloading types on startup"];
        DownloadStarted 0 (Some Demo.theRemotes) None;
        DownloadSettled 0;
        Tapped "ModuleFederationTypesPlugin"]
  /\ compiles (startup (Demo.imports true) Demo.development) = 0
  /\ intervals (startup (Demo.imports true) Demo.development) = [].
Proof. vm_compute. repeat split. Qed.

(** C5 (as the code has it) at a one-shot build. *)
Lemma gates_passed_subflows_witness :
  passesGates (Demo.imports true) Demo.production = true
  /\ JS.strict_eq_string (DEPLOYMENT_ENV Demo.production)
       (CLOUDBEDS_DEPLOYMENT_ENV_WITH_DISABLED_REMOTE_TYPES_DOWNLOAD (Demo.imports true))
     = false
  /\ downloads (startup (Demo.imports true) Demo.production) = 1
  /\ (forall sigs,
        compiles (run (Demo.imports true) Demo.production
                      (boot (Demo.imports true) Demo.production ++ sigs)) = 1
        /\ taps (run (Demo.imports true) Demo.production
                     (boot (Demo.imports true) Demo.production ++ sigs)) = []).
Proof.
  split; [reflexivity|]. split; [reflexivity|].
  pose proof (gates_passed_subflows (Demo.imports true) Demo.production
                eq_refl (or_intror eq_refl))
    as (Hd & Hc & _).
  split; [exact Hd|exact Hc].
Defined.

(** C5 as the spec words it fails there: the gates are passed, exposes is
    present and type compilation is not disabled, and start-up compiles
    nothing. *)
Lemma development_startup_compiles_nothing_with_exposes :
  passesGates (Demo.imports true) Demo.exposesOnly = true
  /\ JS.truthy_object (exposes Demo.exposesOnly) = true
  /\ isCompilationDisabled Demo.exposesOnly = false
  /\ history (startup (Demo.imports true) Demo.exposesOnly)
     = [Tapped "ModuleFederationTypesPlugin"]
  /\ compiles (startup (Demo.imports true) Demo.exposesOnly) = 0.
Proof. vm_compute. repeat split. Qed.

(** C6 at a one-shot build: the compile comes after the settled download. *)
Lemma download_before_compile_witness :
  JS.truthy_object (remotes Demo.production) = true
  /\ JS.truthy_object (exposes Demo.production) = true
  /\ isDownloadDisabled (Demo.imports true) Demo.production = false
  /\ exists rest,
       [Logged log [Str "Downloading types on startup"];
        DownloadStarted 0 (Some Demo.theRemotes) None;
        DownloadSettled 0;
        Logged log [Str "Compile types on startup only"]]
       = Logged log [Str "Downloading types on startup"]
         :: DownloadStarted 0 (remotes Demo.production)
              (remoteManifestUrls (Demo.imports true) Demo.production)
         :: DownloadSettled 0 :: rest.
Proof.
  do 3 (split; [reflexivity|]).
  exact (download_before_compile (Demo.imports true) Demo.production
           [downloadSettled 0]
           [Logged log [Str "Downloading types on startup"];
            DownloadStarted 0 (Some Demo.theRemotes) None;
            DownloadSettled 0;
            Logged log [Str "Compile types on startup only"]]
           [Rewritten "/app/build/@types/index.d.ts" "declare module"]
           (Compiled (Some Demo.theExposes) "/app/build/@types/index.d.ts" true)
           eq_refl eq_refl eq_refl eq_refl eq_refl).
Defined.

(** C1 at a development run in the marked deployment environment. *)
Lemma deployment_marker_does_not_stop_download_witness :
  passesGates (Demo.imports true) Demo.devbox = true
  /\ JS.chain (options Demo.devbox) Options.disableDownladingRemoteTypes = None
  /\ DEPLOYMENT_ENV Demo.devbox
     = Some (CLOUDBEDS_DEPLOYMENT_ENV_WITH_DISABLED_REMOTE_TYPES_DOWNLOAD (Demo.imports true))
  /\ JS.truthy_object (remotes Demo.devbox) = true
  /\ isDownloadDisabled (Demo.imports true) Demo.devbox = true
  /\ history (started (Demo.imports true) Demo.devbox)
     = [Logged log [Str "Downloading types on startup"];
        DownloadStarted 0 (Some Demo.theRemotes) None]
  /\ downloads (startup (Demo.imports true) Demo.devbox) = 1.
Proof.
  do 4 (split; [reflexivity|]).
  pose proof (deployment_marker_does_not_stop_download
                (Demo.imports true) Demo.devbox eq_refl eq_refl eq_refl eq_refl)
    as (Hdisabled & Hhistory & Hdownloads & _).
  split; [exact Hdisabled|]. split; [exact Hhistory|exact Hdownloads].
Defined.

(** ** The further properties on the concrete host *)

(** Type compilation off and the deployment marker set: disabled. *)
Lemma both_features_off_disables_plugin_witness :
  isEveryUrlValid (Demo.imports true)
    (JS.values (JS.nullish (remoteManifestUrls (Demo.imports true) Demo.compileOffInDevbox) []))
  = true
  /\ isCompilationDisabled Demo.compileOffInDevbox = true
  /\ isDownloadDisabled (Demo.imports true) Demo.compileOffInDevbox = true
  /\ history (run (Demo.imports true) Demo.compileOffInDevbox
                  [downloadSettled 0; afterEmit; intervalElapsed 0])
     = [Logged log [Str "Plugin disabled as both type compilation and download features are turned off"]].
Proof.
  do 3 (split; [reflexivity|]).
  exact (proj1 (both_features_off_disables_plugin
                  (Demo.imports true) Demo.compileOffInDevbox
                  [downloadSettled 0; afterEmit; intervalElapsed 0]
                  eq_refl eq_refl eq_refl)).
Defined.

(** A build without a federation plugin: disabled. *)
Lemma missing_federation_name_disables_plugin_witness :
  isEveryUrlValid (Demo.imports true)
    (JS.values (JS.nullish (remoteManifestUrls (Demo.imports true) Demo.noFederation) []))
  = true
  /\ isCompilationDisabled Demo.noFederation
     && isDownloadDisabled (Demo.imports true) Demo.noFederation = false
  /\ JS.truthy_string (JS.chain (federationPluginOptions Demo.noFederation) Federation.name)
     = false
  /\ history (run (Demo.imports true) Demo.noFederation [afterEmit])
     = [Logged log [Str "Plugin disabled as ModuleFederationPlugin is not configured properly. The `name` option is missing."]].
Proof.
  do 3 (split; [reflexivity|]).
  exact (proj1 (missing_federation_name_disables_plugin
                  (Demo.imports true) Demo.noFederation [afterEmit]
                  eq_refl eq_refl eq_refl)).
Defined.

(** An unnamed federation plugin before a well configured one: the first
    is the one read. *)
Lemma first_federation_plugin_decides_witness :
  Webpack.plugins (compiler Demo.twoFederations)
  = [ {| Webpack.constructor_name := "HtmlWebpackPlugin"; Webpack._options := None |} ]
    ++ Demo.unnamedFirst
    :: [Demo.federation (Some Demo.theExposes) (Some Demo.theRemotes)]
  /\ Webpack.constructor_name Demo.unnamedFirst = "ModuleFederationPlugin"
  /\ federationPluginOptions Demo.twoFederations = Webpack._options Demo.unnamedFirst
  /\ exposes Demo.twoFederations = None.
Proof.
  do 2 (split; [reflexivity|]).
  assert (Hpre : Forall (fun q => Webpack.constructor_name q <> "ModuleFederationPlugin")
                        [ {| Webpack.constructor_name := "HtmlWebpackPlugin";
                             Webpack._options := None |} ]).
  { constructor; [discriminate|constructor]. }
  pose proof (proj1 (first_federation_plugin_decides Demo.twoFederations)
                [ {| Webpack.constructor_name := "HtmlWebpackPlugin";
                     Webpack._options := None |} ]
                Demo.unnamedFirst
                [Demo.federation (Some Demo.theExposes) (Some Demo.theRemotes)]
                eq_refl Hpre eq_refl)
    as (Hoptions & Hexposes & _).
  split; [exact Hoptions|exact Hexposes].
Defined.

(** The explicit false in the marked environment, with compilation off: the
    download starts. *)
Lemma explicit_false_overrides_marker_witness :
  JS.chain (options Demo.downloadOnInDevbox) Options.disableDownladingRemoteTypes
  = Some false
  /\ DEPLOYMENT_ENV Demo.downloadOnInDevbox
     = Some (CLOUDBEDS_DEPLOYMENT_ENV_WITH_DISABLED_REMOTE_TYPES_DOWNLOAD (Demo.imports true))
  /\ isCompilationDisabled Demo.downloadOnInDevbox = true
  /\ isDownloadDisabled (Demo.imports true) Demo.downloadOnInDevbox = false
  /\ history (started (Demo.imports true) Demo.downloadOnInDevbox)
     = [Logged log [Str "Downloading types on startup"];
        DownloadStarted 0 (Some Demo.theRemotes) None].
Proof.
  do 3 (split; [reflexivity|]).
  pose proof (explicit_false_overrides_marker
                (Demo.imports true) Demo.downloadOnInDevbox eq_refl)
    as [Henabled Hstart].
  split; [exact Henabled|exact (Hstart eq_refl eq_refl eq_refl)].
Defined.

(** Downloads off by the option, three builds and a timer signal: nothing
    downloaded, no timer. *)
Lemma no_remotes_or_option_never_downloads_witness :
  JS.chain (options Demo.downloadOff) Options.disableDownladingRemoteTypes = Some true
  /\ (let st := run (Demo.imports true) Demo.downloadOff
                    [afterEmit; afterEmit; intervalElapsed 0; afterEmit] in
      downloads st = 0 /\ intervals st = [] /\ count is_interval_set st = 0)
  /\ compiles (run (Demo.imports true) Demo.downloadOff
                   [afterEmit; afterEmit; intervalElapsed 0; afterEmit]) = 3.
Proof.
  split; [reflexivity|]. split; [|reflexivity].
  exact (no_remotes_or_option_never_downloads
           (Demo.imports true) Demo.downloadOff
           [afterEmit; afterEmit; intervalElapsed 0; afterEmit]
           (or_intror eq_refl)).
Defined.

(** A development run: one tap, however many builds. *)
Lemma afterEmit_tapped_at_most_once_witness :
  let st := run (Demo.imports true) Demo.development
                [downloadSettled 0; afterEmit; afterEmit] in
  taps st <> []
  /\ count is_tap st <= 1
  /\ taps st = [PLUGIN_NAME]
  /\ awaiting st = None.
Proof.
  intros st.
  assert (Htaps : taps st <> []) by discriminate.
  pose proof (afterEmit_tapped_at_most_once (Demo.imports true) Demo.development
                [downloadSettled 0; afterEmit; afterEmit])
    as (Hle & _ & Hone).
  split; [exact Htaps|]. split; [exact Hle|exact (Hone Htaps)].
Defined.

(** Two builds and a timer signal before the start-up download is
    fulfilled: nothing compiled. *)
Lemma parked_apply_ignores_signals_witness :
  passesGates (Demo.imports true) Demo.development = true
  /\ remotesAndNotDisabledByOption Demo.development = true
  /\ forallb (fun s => negb (fulfils_startup s))
             [afterEmit; intervalElapsed 0; downloadSettled 1; afterEmit] = true
  /\ history (run (Demo.imports true) Demo.development
                  [afterEmit; intervalElapsed 0; downloadSettled 1; afterEmit])
     = [Logged log [Str "Downloading types on startup"];
        DownloadStarted 0 (Some Demo.theRemotes) None]
  /\ compiles (run (Demo.imports true) Demo.development
                   [afterEmit; intervalElapsed 0; downloadSettled 1; afterEmit]) = 0.
Proof.
  do 3 (split; [reflexivity|]).
  pose proof (parked_apply_ignores_signals (Demo.imports true) Demo.development
                [afterEmit; intervalElapsed 0; downloadSettled 1; afterEmit]
                eq_refl eq_refl eq_refl)
    as (_ & Hhistory & Hcompiles & _).
  split; [exact Hhistory|exact Hcompiles].
Defined.

(** A development run in which no build completes: timer signals start
    nothing. *)
Lemma no_build_no_idle_download_witness :
  forallb (fun s => negb (is_afterEmit s))
          [downloadSettled 0; intervalElapsed 0; intervalElapsed 1] = true
  /\ (let st := run (Demo.imports true) Demo.development
                    [downloadSettled 0; intervalElapsed 0; intervalElapsed 1] in
      intervals st = [] /\ count is_interval_set st = 0 /\ downloads st <= 1).
Proof.
  split; [reflexivity|].
  exact (no_build_no_idle_download (Demo.imports true) Demo.development
           [downloadSettled 0; intervalElapsed 0; intervalElapsed 1] eq_refl).
Defined.

(** A production build: one compile, whatever the host signals. *)
Lemma non_development_mode_is_one_shot_witness :
  Webpack.mode (compiler Demo.production) <> Some "development"
  /\ (let st := run (Demo.imports true) Demo.production
                    [downloadSettled 0; afterEmit; afterEmit; intervalElapsed 0] in
      taps st = [] /\ count is_tap st = 0 /\ intervals st = []
      /\ count is_interval_set st = 0 /\ compiles st <= 1).
Proof.
  assert (Hmode : Webpack.mode (compiler Demo.production) <> Some "development")
    by discriminate.
  split; [exact Hmode|].
  exact (non_development_mode_is_one_shot (Demo.imports true) Demo.production
           [downloadSettled 0; afterEmit; afterEmit; intervalElapsed 0] Hmode).
Defined.

(** A failed compile of a one-shot build: the warning comes next. *)
Lemma every_compile_has_its_outcome_witness :
  history (run (Demo.imports false) Demo.production [downloadSettled 0])
  = [Logged log [Str "Downloading types on startup"];
     DownloadStarted 0 (Some Demo.theRemotes) None;
     DownloadSettled 0;
     Logged log [Str "Compile types on startup only"]]
    ++ Compiled (Some Demo.theExposes) "/app/build/@types/index.d.ts" false
    :: [Logged warn [Str "Failed to compile types for exposed modules.";
                     Str "Use --log-level to see more"]]
  /\ exists e rest,
       [Logged warn [Str "Failed to compile types for exposed modules.";
                     Str "Use --log-level to see more"]] = e :: rest
       /\ exists args, e = Logged warn args.
Proof.
  split; [reflexivity|].
  exact (proj1 (every_compile_has_its_outcome (Demo.imports false) Demo.production
                  [downloadSettled 0])
               [Logged log [Str "Downloading types on startup"];
                DownloadStarted 0 (Some Demo.theRemotes) None;
                DownloadSettled 0;
                Logged log [Str "Compile types on startup only"]]
               (Some Demo.theExposes) "/app/build/@types/index.d.ts" false
               [Logged warn [Str "Failed to compile types for exposed modules.";
                             Str "Use --log-level to see more"]]
               eq_refl).
Defined.

(** The timer of a development run presupposes the whole configuration. *)
Lemma effects_require_configuration_witness :
  In (IntervalSet 0 60000)
     (history (run (Demo.imports true) Demo.development [downloadSettled 0; afterEmit]))
  /\ passesGates (Demo.imports true) Demo.development = true
  /\ JS.truthy_object (exposes Demo.development) = true
  /\ isCompilationDisabled Demo.development = false
  /\ shouldSyncContinuously Demo.development = true
  /\ JS.truthy_object (remotes Demo.development) = true
  /\ JS.truthy_bool
       (JS.chain (options Demo.development) Options.disableDownladingRemoteTypes) = false.
Proof.
  assert (Hin : In (IntervalSet 0 60000)
                   (history (run (Demo.imports true) Demo.development
                                 [downloadSettled 0; afterEmit]))).
  { vm_compute. do 6 right. left. reflexivity. }
  split; [exact Hin|].
  exact (effects_require_configuration (Demo.imports true) Demo.development
           [downloadSettled 0; afterEmit] (IntervalSet 0 60000) Hin).
Defined.


(** After a second build the first timer is dead: its signal changes
    nothing. *)
Lemma replaced_timer_never_fires_witness :
  let sigs := [downloadSettled 0; afterEmit; afterEmit] in
  recompileIntervalId (run (Demo.imports true) Demo.development sigs) <> Some 0
  /\ step (Demo.imports true) Demo.development
          (run (Demo.imports true) Demo.development sigs) (intervalElapsed 0)
     = run (Demo.imports true) Demo.development sigs.
Proof.
  intros sigs.
  assert (Hother : recompileIntervalId (run (Demo.imports true) Demo.development sigs)
                   <> Some 0) by discriminate.
  split; [exact Hother|].
  exact (replaced_timer_never_fires (Demo.imports true) Demo.development sigs 0 Hother).
Defined.
